(** * merge_sources.py: a shallow embedding and its properties

    The program walks a directory tree, keeps the files whose name or
    extension is on an allowlist and that do not sit under an excluded
    directory name, sorts them, and writes them one after the other into a
    single document.

    Conventions of the embedding.
    - A Python [str] is a Rocq [string]: the sequence of the bytes of its
      UTF-8 encoding.  [str.lower] is modelled on ASCII letters (the
      allowlist and the exclusion set are ASCII); [str.rstrip] knows the
      whole of Python's white space.
    - A [pathlib.Path] is the list of its components below [/]; the program
      only handles resolved absolute paths.  POSIX flavour, no symbolic
      links, and the leading double slash of POSIX is not distinguished.
    - The file system is a listing of (path, node) pairs; its order is the
      order in which a directory walk meets the entries.  A directory says
      whether entries may be created in it and removed from it, a file
      whether it may be opened for writing and what reading it raises.
    - Effects are a state and error monad over the file system that also
      emits the sequence of the operations performed.
    - The library is that of Python 3.11 ([pathlib], [argparse], [io]); of
      [argparse] the model keeps the options found and the rule of the
      required, mutually exclusive group. *)

From Stdlib Require Import Ascii String ZArith NArith Lia List Sorted DecimalString.
From stdpp Require Import base decidable option list strings gmap.
From stdpp Require Import sorting.

Open Scope string_scope.

(** ** Python strings *)

Module PyStr.

Definition code (c : ascii) : N := N_of_ascii c.

Definition lower_char (c : ascii) : ascii :=
  if ((65 <=? code c) && (code c <=? 90))%N then ascii_of_N (code c + 32) else c.

(** [s.lower()] *)
Fixpoint lower (s : string) : string :=
  match s with
  | EmptyString => EmptyString
  | String c s' => String (lower_char c) (lower s')
  end.

(** [s.rfind(c)]: the highest index of [c] in [s], or -1.  [i] is the index
    of the first character of [s]. *)
Fixpoint rfind_from (i : Z) (c : ascii) (s : string) : Z :=
  match s with
  | EmptyString => (-1)%Z
  | String a s' =>
      let r := rfind_from (i + 1) c s' in
      if (0 <=? r)%Z then r else if Ascii.eqb a c then i else (-1)%Z
  end.

Definition rfind (c : ascii) (s : string) : Z := rfind_from 0 c s.

(** [s[i:]] for [0 <= i] *)
Fixpoint drop (n : nat) (s : string) : string :=
  match n, s with
  | O, _ => s
  | S n', String _ s' => drop n' s'
  | S _, EmptyString => EmptyString
  end.

Definition len (s : string) : Z := Z.of_nat (String.length s).

(** White space of [str.isspace], read from the end of the UTF-8 text:
    one ASCII byte, or the two or three bytes of U+0085, U+00A0, U+1680,
    U+2000..U+200A, U+2028, U+2029, U+202F, U+205F, U+3000. *)
Definition space1 (b : N) : bool :=
  ((9 <=? b) && (b <=? 13) || (28 <=? b) && (b <=? 32))%N.

Definition space2 (b2 b1 : N) : bool :=
  ((b2 =? 194) && ((b1 =? 133) || (b1 =? 160)))%N.

Definition space3 (b3 b2 b1 : N) : bool :=
  ((b3 =? 225) && (b2 =? 154) && (b1 =? 128)
   || (b3 =? 226) && (b2 =? 128)
      && ((128 <=? b1) && (b1 <=? 138) || (b1 =? 168) || (b1 =? 169) || (b1 =? 175))
   || (b3 =? 226) && (b2 =? 129) && (b1 =? 159)
   || (b3 =? 227) && (b2 =? 128) && (b1 =? 128))%N.

(** The text is given last byte first. *)
Fixpoint rstrip_rev (r : list ascii) : list ascii :=
  match r with
  | [] => []
  | c1 :: r1 =>
      if space1 (code c1) then rstrip_rev r1
      else match r1 with
           | [] => r
           | c2 :: r2 =>
               if space2 (code c2) (code c1) then rstrip_rev r2
               else match r2 with
                    | [] => r
                    | c3 :: r3 =>
                        if space3 (code c3) (code c2) (code c1)
                        then rstrip_rev r3 else r
                    end
           end
  end.

(** [s.rstrip()] *)
Definition rstrip (s : string) : string :=
  string_of_list_ascii (rev (rstrip_rev (rev (list_ascii_of_string s)))).

(** [sep.join(parts)] *)
Fixpoint join (sep : string) (parts : list string) : string :=
  match parts with
  | [] => ""
  | [x] => x
  | x :: rest => x +:+ sep +:+ join sep rest
  end.

(** [s.split("/")] *)
Fixpoint split_slash (cur : string) (s : string) : list string :=
  match s with
  | EmptyString => [String.rev cur]
  | String c s' =>
      if Ascii.eqb c "/" then String.rev cur :: split_slash "" s'
      else split_slash (String c cur) s'
  end.

(** [str(n)] for a non-negative integer *)
Definition of_nat (n : nat) : string := NilEmpty.string_of_uint (Nat.to_uint n).

(** *** Reading text: decoding and newline translation *)

Definition continuation (b : N) : bool := ((128 <=? b) && (b <=? 191))%N.

(** The second byte of a three-byte sequence: E0 wants A0..BF, ED wants
    80..9F (no surrogates), the others any continuation byte. *)
Definition second_of_3 (b0 b1 : N) : bool :=
  continuation b1 && (if (b1 <? 160)%N then negb (b0 =? 224)%N else negb (b0 =? 237)%N).

(** The second byte of a four-byte sequence: F0 wants 90..BF, F4 wants
    80..8F. *)
Definition second_of_4 (b0 b1 : N) : bool :=
  continuation b1 && (if (b1 <? 144)%N then negb (b0 =? 240)%N else negb (b0 =? 244)%N).

(** U+FFFD, the replacement character, in UTF-8 *)
Definition REPLACEMENT : string :=
  String (ascii_of_N 239) (String (ascii_of_N 191) (String (ascii_of_N 189) "")).

Notation "c ::: s" := (String c s) (at level 60, right associativity).

(** [bytes.decode("utf-8", errors="replace")]: every maximal ill-formed
    part becomes one replacement character; a sequence cut off by the end
    of the data is replaced as a whole. *)
Fixpoint decode_replace (bs : string) : string :=
  match bs with
  | EmptyString => ""
  | b0 ::: r0 =>
      let n0 := code b0 in
      if (n0 <? 128)%N then b0 ::: decode_replace r0
      else if ((194 <=? n0) && (n0 <=? 223))%N then
        match r0 with
        | EmptyString => REPLACEMENT
        | b1 ::: r1 =>
            if continuation (code b1) then b0 ::: b1 ::: decode_replace r1
            else REPLACEMENT +:+ decode_replace r0
        end
      else if ((224 <=? n0) && (n0 <=? 239))%N then
        match r0 with
        | EmptyString => REPLACEMENT
        | b1 ::: r1 =>
            if second_of_3 n0 (code b1) then
              match r1 with
              | EmptyString => REPLACEMENT
              | b2 ::: r2 =>
                  if continuation (code b2)
                  then b0 ::: b1 ::: b2 ::: decode_replace r2
                  else REPLACEMENT +:+ decode_replace r1
              end
            else REPLACEMENT +:+ decode_replace r0
        end
      else if ((240 <=? n0) && (n0 <=? 244))%N then
        match r0 with
        | EmptyString => REPLACEMENT
        | b1 ::: r1 =>
            if second_of_4 n0 (code b1) then
              match r1 with
              | EmptyString => REPLACEMENT
              | b2 ::: r2 =>
                  if continuation (code b2) then
                    match r2 with
                    | EmptyString => REPLACEMENT
                    | b3 ::: r3 =>
                        if continuation (code b3)
                        then b0 ::: b1 ::: b2 ::: b3 ::: decode_replace r3
                        else REPLACEMENT +:+ decode_replace r2
                    end
                  else REPLACEMENT +:+ decode_replace r1
              end
            else REPLACEMENT +:+ decode_replace r0
        end
      else REPLACEMENT +:+ decode_replace r0
  end.

(** Reading in text mode with the default [newline=None]: CR LF and a lone
    CR both become LF. *)
Fixpoint universal_newlines (s : string) : string :=
  match s with
  | EmptyString => ""
  | c ::: s' =>
      if (code c =? 13)%N then
        match s' with
        | d ::: s'' =>
            if (code d =? 10)%N then d ::: universal_newlines s''
            else ascii_of_N 10 ::: universal_newlines s'
        | EmptyString => ascii_of_N 10 ::: ""
        end
      else c ::: universal_newlines s'
  end.


End PyStr.

(** ** Paths *)

Definition path := list string.

Module Path.

(** [p.name]: the last component, empty for [/] *)
Definition name (p : path) : string := List.last p "".

(** [p.suffix] *)
Definition suffix (p : path) : string :=
  let name := name p in
  let i := PyStr.rfind "." name in
  if ((0 <? i) && (i <? PyStr.len name - 1))%Z
  then PyStr.drop (Z.to_nat i) name
  else "".

(** [p.parents]: the logical ancestors, the nearest first, [/] last;
    [parents[idx]] keeps the components [parts[:-idx-1]]. *)
Definition parents (p : path) : list path :=
  map (fun idx => take (length p - idx - 1) p) (seq 0 (length p)).

(** [p.parent] *)
Definition parent (p : path) : path := removelast p.

(** [str(p)] *)
Definition str (p : path) : string := "/" +:+ PyStr.join "/" p.

(** [p.relative_to(other)]: the components of [p] below [other];
    [None] stands for the [ValueError] raised when [p] is not under
    [other]. *)
Definition relative_to (p other : path) : option (list string) :=
  if decide (take (length other) p = other)
  then Some (drop (length other) p) else None.

(** [rel.as_posix()] of a relative path *)
Definition as_posix (rel : list string) : string :=
  match rel with
  | [] => "."
  | _ => PyStr.join "/" rel
  end.

(** The components of a path written as a string: empty components and
    [.] are dropped, [..] is kept. *)
Definition parts_of (arg : string) : list string :=
  filter (fun c => c <> "" /\ c <> ".") (PyStr.split_slash "" arg).

Definition is_absolute (arg : string) : bool :=
  match arg with
  | String c _ => Ascii.eqb c "/"
  | EmptyString => false
  end.

(** [base / arg]: an absolute [arg] replaces [base]. *)
Definition joinpath (base : list string) (arg : string) : list string :=
  if is_absolute arg then parts_of arg else (base ++ parts_of arg)%list.

(** [p.resolve()] where there are no symbolic links: [..] steps to the
    parent and stays at [/]. *)
Definition resolve (p : list string) : path :=
  fold_left (fun acc c => if decide (c = "..") then removelast acc else (acc ++ [c])%list) p [].

End Path.

(** ** The configuration of the program *)

Definition WHITELIST_EXTS : gset string :=
  list_to_set
    [ ".c"; ".h"; ".hpp"; ".hh"; ".hxx"; ".ipp";
      ".cpp"; ".cc"; ".cxx"; ".inl"; ".ixx";
      ".cs"; ".java"; ".kt";
      ".ts"; ".tsx"; ".js"; ".jsx";
      ".py"; ".rs"; ".go"; ".swift";
      ".m"; ".mm"; ".lua"; ".sh"; ".bat"; ".ps1";
      ".cmake"; ".proto"; ".sql";
      ".yml"; ".yaml"; ".toml"; ".ini"; ".cfg"; ".conf";
      ".txt"; ".md"; ".json"; ".csv";
      ".f90"; ".f95"; ".f03"; ".f08"; ".for"; ".f"; ".ftn";
      ".asm"; ".s";
      ".vert"; ".frag"; ".glsl"; ".hlsl"; ".metal";
      ".make" ].

Definition WHITELIST_BARE_NAMES : gset string :=
  list_to_set [ "Makefile"; "CMakeLists.txt" ].

Definition EXCLUDE_DIRS : gset string :=
  list_to_set
    [ ".git"; ".hg"; ".svn"; ".idea"; ".vscode"; ".vs";
      "node_modules"; "dist"; "out"; "build"; "target"; "bin"; "obj";
      "__pycache__"; ".venv"; "venv"; ".mypy_cache"; ".pytest_cache";
      "DerivedData"; "Pods" ].

Definition OUTPUT_FILENAME : string := "document.txt".

Definition is_allowed_file (p : path) : bool :=
  if bool_decide (Path.name p ∈ WHITELIST_BARE_NAMES) then true
  else bool_decide (PyStr.lower (Path.suffix p) ∈ WHITELIST_EXTS).

Definition should_skip_dir (p : path) : bool :=
  bool_decide (Path.name p ∈ EXCLUDE_DIRS).

(** ** The file system *)

(** A regular file: its bytes, the text of the error that reading it raises
    (if any), and whether it may be opened for writing. *)
Record file := mk_file { data : string; read_error : option string; writable : bool }.

(** A directory records whether entries may be created in it and removed
    from it. *)
Inductive node :=
| Dir (dir_writable : bool)
| File (f : file).

(** The entries in the order in which a walk meets them.  When a path occurs
    twice, its first occurrence is the entry. *)
Abbreviation filesystem := (list (path * node)).

Module FS.

Fixpoint lookup (fs : filesystem) (p : path) : option node :=
  match fs with
  | [] => None
  | (q, n) :: fs' => if decide (q = p) then Some n else lookup fs' p
  end.

(** [p.exists()] *)
Definition exists_ (fs : filesystem) (p : path) : bool :=
  match lookup fs p with Some _ => true | None => false end.

(** [p.is_dir()] *)
Definition is_dir (fs : filesystem) (p : path) : bool :=
  match lookup fs p with Some (Dir _) => true | _ => false end.

(** The paths of the entries, each once, in the order of the listing. *)
Fixpoint listing (fs : filesystem) : list path :=
  match fs with
  | [] => []
  | (q, _) :: fs' => q :: filter (fun p => p <> q) (listing fs')
  end.

(** [root] is a proper ancestor of [p]. *)
Definition below (root p : path) : bool :=
  bool_decide (take (length root) p = root) && bool_decide (length root < length p).

(** A walk from [root] reaches [p]: [root] and every component between
    [root] and [p] is a directory. *)
Definition reachable (fs : filesystem) (root p : path) : bool :=
  forallb (fun k => is_dir fs (take k p)) (seq (length root) (length p - length root)).

(** [root.rglob("*")]: every entry below [root], directories included. *)
Definition rglob (fs : filesystem) (root : path) : list path :=
  filter (fun p => below root p && reachable fs root p) (listing fs).

Definition remove (p : path) (fs : filesystem) : filesystem :=
  filter (fun e => e.1 <> p) fs.

Definition set_data (p : path) (d : string) (fs : filesystem) : filesystem :=
  map (fun e =>
         match e with
         | (q, File f) =>
             if decide (q = p) then (q, File (mk_file d (read_error f) (writable f))) else e
         | _ => e
         end) fs.

Definition create (p : path) (fs : filesystem) : filesystem :=
  (fs ++ [(p, File (mk_file "" None true))])%list.

End FS.

(** ** Effects *)

Inductive exn :=
| SystemExit (status : nat) (message : string)
| OSError (message : string)
| ValueError (message : string)
| TypeError (message : string).

(** [except Exception] does not catch [SystemExit]. *)
Definition is_Exception (e : exn) : bool :=
  match e with SystemExit _ _ => false | _ => true end.

(** [str(e)] *)
Definition exn_str (e : exn) : string :=
  match e with
  | SystemExit _ m | OSError m | ValueError m | TypeError m => m
  end.

Inductive result (A : Type) :=
| Ok (a : A)
| Raise (e : exn).
Arguments Ok {A} a.
Arguments Raise {A} e.

(** The operations the program performs, in the order it performs them. *)
Inductive event :=
| EvExists (p : path)
| EvIsDir (p : path)
| EvUnlink (p : path)
| EvScan (root : path) (files : list path)
| EvOpen (p : path)
| EvRead (p : path)
| EvPrint (line : string).

(** The file system, and the file object [fw] of [write_merged] while it is
    open: its path and the text written to it so far. *)
Record state := mk_state { fs : filesystem; fw : option (path * string) }.

Definition M (A : Type) : Type := state -> result A * state * list event.

Definition ret {A} (a : A) : M A := fun s => (Ok a, s, []).

Definition raise {A} (e : exn) : M A := fun s => (Raise e, s, []).

Definition bind {A B} (m : M A) (k : A -> M B) : M B :=
  fun s =>
    match m s with
    | (Ok a, s1, t1) => let '(r, s2, t2) := k a s1 in (r, s2, (t1 ++ t2)%list)
    | (Raise e, s1, t1) => (Raise e, s1, t1)
    end.

Declare Scope py_scope.
Delimit Scope py_scope with py.
Notation "x <- m ;; k" := (bind m (fun x => k))
  (at level 100, m at next level, right associativity) : py_scope.
Notation "m ;; k" := (bind m (fun _ => k))
  (at level 100, right associativity) : py_scope.

(** [try: m  except Exception as e: h e] *)
Definition try_except {A} (m : M A) (h : exn -> M A) : M A :=
  fun s =>
    match m s with
    | (Raise e, s1, t1) =>
        if is_Exception e
        then let '(r, s2, t2) := h e s1 in (r, s2, (t1 ++ t2)%list)
        else (Raise e, s1, t1)
    | ok => ok
    end.

(** [try: body  finally: final] *)
Definition finally {A} (body : M A) (final : M unit) : M A :=
  fun s =>
    let '(r, s1, t1) := body s in
    let '(_, s2, t2) := final s1 in (r, s2, (t1 ++ t2)%list).

Definition nl : string := String (ascii_of_N 10) "".

(** [repr] of the string of a path, as it appears in the text of an
    [OSError] (names without quotes or control characters). *)
Definition quoted (p : path) : string := "'" +:+ Path.str p +:+ "'".

Definition ENOENT (p : path) : exn :=
  OSError ("[Errno 2] No such file or directory: " +:+ quoted p).
Definition EACCES (p : path) : exn :=
  OSError ("[Errno 13] Permission denied: " +:+ quoted p).
Definition ENOTDIR (p : path) : exn :=
  OSError ("[Errno 20] Not a directory: " +:+ quoted p).
Definition EISDIR (p : path) : exn :=
  OSError ("[Errno 21] Is a directory: " +:+ quoted p).

Definition path_exists (p : path) : M bool :=
  fun s => (Ok (FS.exists_ (fs s) p), s, [EvExists p]).

Definition path_is_dir (p : path) : M bool :=
  fun s => (Ok (FS.is_dir (fs s) p), s, [EvIsDir p]).

(** [p.unlink()]: removing an entry needs a writable directory around it. *)
Definition unlink (p : path) : M unit :=
  fun s =>
    match FS.lookup (fs s) p with
    | None => (Raise (ENOENT p), s, [EvUnlink p])
    | Some (Dir _) => (Raise (EISDIR p), s, [EvUnlink p])
    | Some (File _) =>
        match FS.lookup (fs s) (Path.parent p) with
        | Some (Dir true) => (Ok tt, mk_state (FS.remove p (fs s)) (fw s), [EvUnlink p])
        | _ => (Raise (EACCES p), s, [EvUnlink p])
        end
    end.

(** [p.read_text(encoding="utf-8", errors="replace")] *)
Definition read_text (p : path) : M string :=
  fun s =>
    match FS.lookup (fs s) p with
    | None => (Raise (ENOENT p), s, [EvRead p])
    | Some (Dir _) => (Raise (EISDIR p), s, [EvRead p])
    | Some (File f) =>
        match read_error f with
        | Some m => (Raise (OSError m), s, [EvRead p])
        | None => (Ok (PyStr.universal_newlines (PyStr.decode_replace (data f))), s, [EvRead p])
        end
    end.

(** [print(line)] *)
Definition print (line : string) : M unit :=
  fun s => (Ok tt, s, [EvPrint line]).

Section Writer.

(** The writer is buffered: of the text written so far, [flushed] is the
    part that has reached the file.  Closing the writer flushes all. *)
Variable flushed : string -> string.

(** [p.open("w", encoding="utf-8", newline="\n")]: an existing file is
    truncated; a new one needs a writable directory. *)
Definition open_w (p : path) : M unit :=
  fun s =>
    match FS.lookup (fs s) p with
    | Some (Dir _) => (Raise (EISDIR p), s, [EvOpen p])
    | Some (File f) =>
        if writable f
        then (Ok tt, mk_state (FS.set_data p "" (fs s)) (Some (p, "")), [EvOpen p])
        else (Raise (EACCES p), s, [EvOpen p])
    | None =>
        match FS.lookup (fs s) (Path.parent p) with
        | Some (Dir true) => (Ok tt, mk_state (FS.create p (fs s)) (Some (p, "")), [EvOpen p])
        | Some (Dir false) => (Raise (EACCES p), s, [EvOpen p])
        | Some (File _) => (Raise (ENOTDIR p), s, [EvOpen p])
        | None => (Raise (ENOENT p), s, [EvOpen p])
        end
    end.

(** [fw.write(text)] *)
Definition fw_write (text : string) : M unit :=
  fun s =>
    match fw s with
    | Some (p, written) =>
        let written' := written +:+ text in
        (Ok tt, mk_state (FS.set_data p (flushed written') (fs s)) (Some (p, written')), [])
    | None => (Raise (ValueError "I/O operation on closed file."), s, [])
    end.

(** Leaving the [with] block closes the writer. *)
Definition fw_close : M unit :=
  fun s =>
    match fw s with
    | Some (p, written) => (Ok tt, mk_state (FS.set_data p written (fs s)) None, [])
    | None => (Ok tt, s, [])
    end.

(** [with p.open("w", ...) as fw: body] *)
Definition with_open {A} (p : path) (body : M A) : M A :=
  (open_w p ;; finally body fw_close)%py.

End Writer.

(** ** The program *)

(** [l.sort(key=key)]: a stable sort; an element goes before the first
    element whose key is not below its own. *)
Fixpoint insert_by (key : path -> string) (x : path) (l : list path) : list path :=
  match l with
  | [] => [x]
  | y :: l' =>
      if String.leb (key x) (key y) then x :: l else y :: insert_by key x l'
  end.

Fixpoint sort_by (key : path -> string) (l : list path) : list path :=
  match l with
  | [] => []
  | x :: l' => insert_by key x (sort_by key l')
  end.

(** The body of the loop of [iter_source_files] over what [rglob] yields. *)
Fixpoint collect (fs : filesystem) (root : path) (ps : list path) : list path :=
  match ps with
  | [] => []
  | p :: ps' =>
      if FS.is_dir fs p then collect fs root ps'
      else if existsb should_skip_dir (filter (fun parent => parent <> root) (Path.parents p))
      then collect fs root ps'
      else if is_allowed_file p then p :: collect fs root ps'
      else collect fs root ps'
  end.

Definition iter_source_files (fs : filesystem) (root : path) : list path :=
  let files := collect fs root (FS.rglob fs root) in
  sort_by (fun x => PyStr.lower (Path.str x)) files.

(** [files = iter_source_files(root)] as a step of [main] *)
Definition scan (root : path) : M (list path) :=
  fun s => let files := iter_source_files (fs s) root in (Ok files, s, [EvScan root files]).

(** [enumerate(l)] *)
Definition enumerate {A} (l : list A) : list (nat * A) := combine (seq 0 (length l)) l.

Definition relative_to (f root : path) : M (list string) :=
  match Path.relative_to f root with
  | Some rel => ret rel
  | None =>
      raise (ValueError (quoted f +:+ " is not in the subpath of " +:+ quoted root
                         +:+ " OR one path is relative and the other is absolute."))
  end.

(** The options found on the command line, in their order.  (Splitting the
    command line into options is left to [argparse].) *)
Inductive opt :=
| OptAll
| OptDir (DIRECTORY_NAME : string)
| OptOutput (OUTPUT : string).

Record args := mk_args { all : bool; dir_name : option string; output : string }.

(** [parse_args] over a required group of two mutually exclusive options: an
    option of the group is refused once the other one was seen, and one of
    them must have been seen at the end.  The error ends the run with
    status 2. *)
Fixpoint parse_opts (argv : list opt) (ns : args) (seen_all seen_dir : bool) : result args :=
  match argv with
  | [] =>
      if seen_all || seen_dir then Ok ns
      else Raise (SystemExit 2 "one of the arguments -a/--all -d/--dir is required")
  | OptAll :: rest =>
      if seen_dir
      then Raise (SystemExit 2 "argument -a/--all: not allowed with argument -d/--dir")
      else parse_opts rest (mk_args true (dir_name ns) (output ns)) true seen_dir
  | OptDir d :: rest =>
      if seen_all
      then Raise (SystemExit 2 "argument -d/--dir: not allowed with argument -a/--all")
      else parse_opts rest (mk_args (all ns) (Some d) (output ns)) seen_all true
  | OptOutput o :: rest =>
      parse_opts rest (mk_args (all ns) (dir_name ns) o) seen_all seen_dir
  end.

Definition parse_args (argv : list opt) : result args :=
  parse_opts argv (mk_args false None OUTPUT_FILENAME) false false.

(** A computation that touches nothing. *)
Definition lift {A} (r : result A) : M A := fun s => (r, s, []).

Section Program.

Variable flushed : string -> string.

Local Open Scope py_scope.

(** The loop of [write_merged]; [n] is [len(files)]. *)
Fixpoint write_entries (root : path) (n : nat) (ifs : list (nat * path)) : M unit :=
  match ifs with
  | [] => ret tt
  | (i, f) :: rest =>
      rel <- relative_to f root ;;
      fw_write flushed ("-- " +:+ Path.as_posix rel +:+ nl +:+ nl) ;;
      text <- try_except (read_text f)
                (fun e => ret ("<<ERROR READING FILE: " +:+ exn_str e +:+ ">>")) ;;
      fw_write flushed (PyStr.rstrip text +:+ nl) ;;
      (if decide (Z.of_nat i <> (Z.of_nat n - 1)%Z) then fw_write flushed nl else ret tt) ;;
      write_entries root n rest
  end.

Definition write_merged (root : path) (files : list path) (out_file : path) : M unit :=
  with_open out_file (write_entries root (length files) (enumerate files)).

(** [script_dir] is [Path(__file__).resolve().parent]. *)
Definition main (script_dir : path) (argv : list opt) : M unit :=
  args <- lift (parse_args argv) ;;
  root <- (if all args then ret script_dir
           else
             match dir_name args with
             | None => raise (TypeError "unsupported operand type(s) for /")
             | Some d =>
                 let root := Path.resolve (Path.joinpath script_dir d) in
                 e <- path_exists root ;;
                 if negb e
                 then raise (SystemExit 1 ("[에러] 디렉토리를 찾을 수 없습니다: " +:+ Path.str root))
                 else
                   isdir <- path_is_dir root ;;
                   if negb isdir
                   then raise (SystemExit 1 ("[에러] 디렉토리를 찾을 수 없습니다: " +:+ Path.str root))
                   else ret root
             end) ;;
  let out_path := Path.resolve (Path.joinpath script_dir (output args)) in
  e <- path_exists out_path ;;
  (if e then try_except (unlink out_path) (fun _ => ret tt) else ret tt) ;;
  files <- scan root ;;
  write_merged root files out_path ;;
  print ("[완료] " +:+ PyStr.of_nat (length files) +:+ "개 파일을 병합했습니다 -> " +:+ Path.str out_path).

End Program.

(** ** The selection as the specification words it *)

(** The directories strictly between [root] and [p]. *)
Definition strictly_between (root p : path) : list path :=
  filter (fun q => FS.below root q) (Path.parents p).

(** An entry under [root] that is a file, passes the allowlist test, and has
    no excluded directory name among its ancestors strictly between itself
    and [root]. *)
Definition selected (fs : filesystem) (root p : path) : bool :=
  bool_decide (p ∈ FS.rglob fs root)
  && negb (FS.is_dir fs p)
  && is_allowed_file p
  && negb (existsb should_skip_dir (strictly_between root p)).

(** The order of the sort: the keys compared as strings. *)
Definition key (x : path) : string := PyStr.lower (Path.str x).


(** ** The document as the specification words it *)

(** The text of an entry: what reading the file gives, and the diagnostic
    naming the error when reading fails. *)
Definition entry_text (fs : filesystem) (f : path) : string :=
  match read_text f (mk_state fs None) with
  | (Ok text, _, _) => text
  | (Raise e, _, _) => "<<ERROR READING FILE: " +:+ exn_str e +:+ ">>"
  end.

(** An entry: the header line [-- <relative-path>], one blank line, the
    content trimmed at its end, one newline. *)
Definition block (root f : path) (text : string) : string :=
  "-- " +:+ PyStr.join "/" (drop (length root) f) +:+ nl +:+ nl
  +:+ PyStr.rstrip text +:+ nl.

(** The entries in order, one blank line between two of them and nothing
    after the last. *)
Definition document (root : path) (files : list path) (texts : list string) : string :=
  PyStr.join nl (zip_with (block root) files texts).

(** The content of the regular file at [p], if there is one. *)
Definition content (fs : filesystem) (p : path) : option string :=
  match FS.lookup fs p with
  | Some (File f) => Some (data f)
  | _ => None
  end.

(** Two file systems that differ at most in the content of the file [out]. *)
Definition same_but (out : path) (fs1 fs2 : filesystem) : Prop :=
  forall d, FS.set_data out d fs1 = FS.set_data out d fs2.

(** ** The steps of [main] *)

Definition out_path_of (script_dir : path) (a : args) : path :=
  Path.resolve (Path.joinpath script_dir (output a)).

Definition not_found (root : path) : exn :=
  SystemExit 1 ("[에러] 디렉토리를 찾을 수 없습니다: " +:+ Path.str root).

Definition summary (count : nat) (out : path) : string :=
  "[완료] " +:+ PyStr.of_nat count +:+ "개 파일을 병합했습니다 -> " +:+ Path.str out.

(** The choice of the root directory. *)
Definition resolve_root (script_dir : path) (a : args) : M path :=
  (if all a then ret script_dir
   else
     match dir_name a with
     | None => raise (TypeError "unsupported operand type(s) for /")
     | Some d =>
         let root := Path.resolve (Path.joinpath script_dir d) in
         e <- path_exists root ;;
         if negb e then raise (not_found root)
         else
           isdir <- path_is_dir root ;;
           if negb isdir then raise (not_found root) else ret root
     end)%py.

(** The removal of an output file left by an earlier run. *)
Definition remove_output (out : path) : M unit :=
  (e <- path_exists out ;;
   if e then try_except (unlink out) (fun _ => ret tt) else ret tt)%py.

(** Whether [unlink] succeeds: a regular file in a writable directory. *)
Definition can_unlink (fs0 : filesystem) (p : path) : bool :=
  match FS.lookup fs0 p, FS.lookup fs0 (Path.parent p) with
  | Some (File _), Some (Dir true) => true
  | _, _ => false
  end.

(** The state in which the scan and the merge run: the output file of an
    earlier run removed when it can be. *)
Definition after_removal (out : path) (s : state) : state :=
  if can_unlink (fs s) out then mk_state (FS.remove out (fs s)) (fw s) else s.

Definition removal_events (out : path) (s : state) : list event :=
  EvExists out :: if FS.exists_ (fs s) out then [EvUnlink out] else [].

(** What the run printed. *)
Definition stdout (ev : list event) : list string :=
  flat_map (fun e => match e with EvPrint line => [line] | _ => [] end) ev.

(** ** The command line *)

Definition has_all (argv : list opt) : bool :=
  existsb (fun o => match o with OptAll => true | _ => false end) argv.

Definition has_dir (argv : list opt) : bool :=
  existsb (fun o => match o with OptDir _ => true | _ => false end) argv.

(** The name given with the last [-d]. *)
Fixpoint last_dir (argv : list opt) : option string :=
  match argv with
  | [] => None
  | OptDir d :: rest =>
      match last_dir rest with Some d' => Some d' | None => Some d end
  | _ :: rest => last_dir rest
  end.

(** ** Sample trees *)

Definition regular (d : string) : node := File (mk_file d None true).

Definition fs_two_files : filesystem :=
  [ ([], Dir true); (["r"], Dir true); (["r"; "sub"], Dir true);
    (["r"; "sub"; "b.txt"], regular ("bee  " +:+ nl +:+ nl));
    (["r"; "a.py"], regular "print(1)") ].

(** A tool installed under a directory named [build]. *)
Definition fs_under_build : filesystem :=
  [ ([], Dir true); (["srv"], Dir true); (["srv"; "build"], Dir true);
    (["srv"; "build"; "proj"], Dir true);
    (["srv"; "build"; "proj"; "a.py"], regular "print(1)") ].

(** A directory in which nothing can be removed, holding the output of an
    earlier run. *)
Definition fs_read_only_dir : filesystem :=
  [ ([], Dir true); (["proj"], Dir false);
    (["proj"; "a.py"], regular "print(1)");
    (["proj"; "document.txt"], regular "old") ].

(** A file that cannot be read and a file with a byte that is not UTF-8. *)
Definition fs_bad_files : filesystem :=
  [ ([], Dir true); (["r"], Dir true);
    (["r"; "a.py"], File (mk_file "" (Some "[Errno 13] Permission denied: '/r/a.py'") true));
    (["r"; "b.txt"], regular (String (ascii_of_N 255) "x")) ].

(** A tree without any file of the allowlist. *)
Definition fs_no_match : filesystem :=
  [ ([], Dir true); (["r"], Dir true); (["r"; "img.png"], regular "png") ].

(** ** More vocabulary *)

(** A tree with a dependency directory. *)
Definition fs_node_modules : filesystem :=
  [ ([], Dir true); (["r"], Dir true); (["r"; "node_modules"], Dir true);
    (["r"; "node_modules"; "x.js"], regular "x"); (["r"; "main.js"], regular "m") ].

(** The loop keeps the paths that pass its three tests, in their order. *)
Definition kept (fs0 : filesystem) (root p : path) : Prop :=
  FS.is_dir fs0 p = false
  /\ existsb should_skip_dir (filter (fun parent => parent <> root) (Path.parents p)) = false
  /\ is_allowed_file p = true.

#[global] Instance kept_dec fs0 root p : Decision (kept fs0 root p).
Proof. unfold kept. apply _. Defined.



(** A name without a dot. *)
Fixpoint dotless (s : string) : bool :=
  match s with
  | EmptyString => true
  | String c s' => negb (Ascii.eqb c ".") && dotless s'
  end.


(** A text with a carriage return. *)
Fixpoint has_cr (s : string) : bool :=
  match s with
  | EmptyString => false
  | String c s' => (PyStr.code c =? 13)%N || has_cr s'
  end.

(** A text of ASCII white space only. *)
Definition ascii_blank (w : string) : bool :=
  forallb (fun c => PyStr.space1 (PyStr.code c)) (list_ascii_of_string w).

(** A file with the line ends CR LF and CR. *)
Definition crlf_file : file :=
  mk_file (String "a" (String (ascii_of_N 13) (String (ascii_of_N 10)
             (String "b" (String (ascii_of_N 13) "c"))))) None true.

Definition fs_crlf : filesystem :=
  [ ([], Dir true); (["r"], Dir true); (["r"; "w.txt"], File crlf_file) ].

(** * Properties *)

(** ** Strings and sorting *)





Section Sorting.

Variable k : path -> string.


Lemma elem_of_insert_by x y l : y ∈ insert_by k x l <-> y = x \/ y ∈ l.
Proof.
  induction l as [|z l IH]; simpl.
  - rewrite list_elem_of_singleton, elem_of_nil. tauto.
  - destruct (String.leb (k x) (k z)); rewrite !elem_of_cons; [tauto|].
    rewrite IH. tauto.
Qed.

Lemma elem_of_sort_by y l : y ∈ sort_by k l <-> y ∈ l.
Proof.
  induction l as [|x l IH]; simpl; [done|].
  rewrite elem_of_insert_by, IH, elem_of_cons. tauto.
Qed.

Lemma insert_by_Permutation x l : insert_by k x l ≡ₚ x :: l.
Proof.
  induction l as [|z l IH]; simpl; [done|].
  destruct (String.leb (k x) (k z)); [done|].
  rewrite IH. apply Permutation_swap.
Qed.

Lemma sort_by_Permutation l : sort_by k l ≡ₚ l.
Proof.
  induction l as [|x l IH]; simpl; [done|].
  by rewrite insert_by_Permutation, IH.
Qed.



End Sorting.

(** ** Decoding *)






(** ** The file system and the enumerator *)

Lemma elem_of_listing fs p : p ∈ FS.listing fs <-> FS.exists_ fs p = true.
Proof.
  unfold FS.exists_.
  induction fs as [|[q n] fs IH]; simpl.
  - rewrite elem_of_nil. split; [tauto | discriminate].
  - rewrite elem_of_cons, list_elem_of_filter, IH.
    destruct (decide (q = p)) as [->|Hne]; [tauto|].
    split; [intros [->|[_ H]]; [done | exact H] | intros H; right; split; [congruence | exact H]].
Qed.

Lemma elem_of_rglob fs root p :
  p ∈ FS.rglob fs root <->
  FS.below root p = true /\ FS.reachable fs root p = true /\ FS.exists_ fs p = true.
Proof.
  unfold FS.rglob. rewrite list_elem_of_filter, elem_of_listing.
  rewrite andb_True, !Is_true_true. tauto.
Qed.

Lemma elem_of_collect fs root ps p :
  p ∈ collect fs root ps <->
  p ∈ ps /\ FS.is_dir fs p = false
  /\ existsb should_skip_dir (filter (fun parent => parent <> root) (Path.parents p)) = false
  /\ is_allowed_file p = true.
Proof.
  induction ps as [|q ps IH]; simpl.
  - rewrite elem_of_nil. tauto.
  - destruct (FS.is_dir fs q) eqn:Hd;
      [|destruct (existsb should_skip_dir (filter _ (Path.parents q))) eqn:Hs;
        [|destruct (is_allowed_file q) eqn:Ha]];
      rewrite ?elem_of_cons, IH; split;
      try (intros [[->|H] H']; [try congruence; destruct H' as (?&?&?); congruence | tauto]);
      try tauto.
    intros [->|H]; tauto.
Qed.

(** What the enumerator returns, read off the code. *)
Lemma elem_of_iter_source_files fs root p :
  p ∈ iter_source_files fs root <->
  p ∈ FS.rglob fs root /\ FS.is_dir fs p = false
  /\ existsb should_skip_dir (filter (fun parent => parent <> root) (Path.parents p)) = false
  /\ is_allowed_file p = true.
Proof. unfold iter_source_files. by rewrite elem_of_sort_by, elem_of_collect. Qed.

Lemma elem_of_parents q p :
  q ∈ Path.parents p <-> exists k, k < length p /\ q = take k p.
Proof.
  unfold Path.parents. rewrite list_elem_of_In, in_map_iff. split.
  - intros (idx & <- & Hin). apply in_seq in Hin.
    exists (length p - idx - 1). split; [lia | done].
  - intros (k & Hk & ->). exists (length p - k - 1). split.
    + f_equal. lia.
    + apply in_seq. lia.
Qed.

Lemma below_spec root p :
  FS.below root p = true <-> take (length root) p = root /\ length root < length p.
Proof.
  unfold FS.below. rewrite andb_true_iff, !bool_decide_eq_true. tauto.
Qed.

Lemma existsb_false_iff {A} (f : A -> bool) l :
  existsb f l = false <-> forall x, x ∈ l -> f x = false.
Proof.
  induction l as [|y l IH]; simpl.
  - split; [intros _ x Hx; by apply elem_of_nil in Hx | done].
  - rewrite orb_false_iff, IH. split.
    + intros [Hy Hl] x Hx. apply elem_of_cons in Hx as [->|Hx]; auto.
    + intros H. split; [apply H; left | intros x Hx; apply H; by right].
Qed.

Lemma take_below k (root p : path) :
  take (length root) p = root -> k <= length root -> take k p = take k root.
Proof.
  intros Hpre Hk.
  replace (take k root) with (take k (take (length root) p)) by (by rewrite Hpre).
  rewrite take_take. f_equal. lia.
Qed.

(** Below [root], the ancestors other than [root] are the directories
    strictly between and the ancestors of [root] itself. *)
Lemma skip_parents_split root p :
  FS.below root p = true ->
  existsb should_skip_dir (filter (fun parent => parent <> root) (Path.parents p)) = false
  <-> existsb should_skip_dir (strictly_between root p) = false
      /\ existsb should_skip_dir (Path.parents root) = false.
Proof.
  intros [Hpre Hlen]%below_spec. rewrite !existsb_false_iff. split.
  - intros H. split.
    + intros q [Hb Hq]%list_elem_of_filter. apply H.
      apply list_elem_of_filter. split; [|done].
      apply Is_true_true, below_spec in Hb as [_ Hb]. intros ->. lia.
    + intros q (k & Hk & ->)%elem_of_parents. apply H.
      apply list_elem_of_filter. split.
      * intros Heq. apply (f_equal length) in Heq. rewrite length_take in Heq. lia.
      * apply elem_of_parents. exists k. split; [lia|].
        symmetry. apply take_below; [done | lia].
  - intros [Hbetween Habove] q [Hne Hq]%list_elem_of_filter.
    pose proof Hq as (k & Hk & ->)%elem_of_parents.
    destruct (decide (k < length root)) as [Hlt|Hge].
    + apply Habove, elem_of_parents. exists k. split; [done|].
      apply take_below; [done | lia].
    + assert (k <> length root) by (intros ->; by rewrite Hpre in Hne).
      apply Hbetween, list_elem_of_filter. split; [|done].
      apply Is_true_true, below_spec. rewrite length_take, take_take.
      split; [|lia]. rewrite <- Hpre at 2. f_equal. lia.
Qed.

(** The enumerator returns the selection of the specification exactly when
    no directory above [root] bears an excluded name, and nothing otherwise. *)
Lemma iter_source_files_selected fs root p :
  p ∈ iter_source_files fs root <->
  selected fs root p = true /\ existsb should_skip_dir (Path.parents root) = false.
Proof.
  rewrite elem_of_iter_source_files. unfold selected.
  rewrite !andb_true_iff, !negb_true_iff, bool_decide_eq_true. split.
  - intros (Hin & Hd & Hs & Ha).
    pose proof Hin as (Hb & _)%elem_of_rglob.
    apply (skip_parents_split _ _ Hb) in Hs as [? ?]. tauto.
  - intros ((((Hin & Hd) & Ha) & Hs) & Hr).
    pose proof Hin as (Hb & _)%elem_of_rglob.
    repeat split; try done. by apply (skip_parents_split _ _ Hb).
Qed.

Lemma iter_source_files_below fs root p :
  p ∈ iter_source_files fs root -> FS.below root p = true.
Proof. intros (Hin & _)%elem_of_iter_source_files. by apply elem_of_rglob in Hin as (? & _). Qed.

Lemma below_relative_to root p :
  FS.below root p = true ->
  Path.relative_to p root = Some (drop (length root) p) /\ drop (length root) p <> [].
Proof.
  intros [Hpre Hlen]%below_spec. unfold Path.relative_to.
  rewrite decide_True by done. split; [done|].
  intros Hnil. apply (f_equal length) in Hnil. rewrite length_drop in Hnil. simpl in Hnil. lia.
Qed.

(** ** The writer *)

Lemma append_assoc (a b c : string) : (a +:+ b) +:+ c = a +:+ (b +:+ c).
Proof.
  induction a as [|x a IH]; [done|].
  change (String x ((a +:+ b) +:+ c) = String x (a +:+ (b +:+ c))). by rewrite IH.
Qed.

Lemma append_nil_r (a : string) : a +:+ "" = a.
Proof.
  induction a as [|x a IH]; [done|].
  change (String x (a +:+ "") = String x a). by rewrite IH.
Qed.

Lemma lookup_set_data_ne p q d fs :
  p <> q -> FS.lookup (FS.set_data p d fs) q = FS.lookup fs q.
Proof.
  intros Hne. induction fs as [|[r n] fs IH]; simpl; [done|].
  destruct n as [w|f]; simpl.
  - by rewrite IH.
  - destruct (decide (r = p)) as [->|Hrp]; simpl.
    + rewrite !decide_False by done. exact IH.
    + by rewrite IH.
Qed.

Lemma lookup_set_data_eq p d fs :
  FS.lookup (FS.set_data p d fs) p =
  match FS.lookup fs p with
  | Some (File f) => Some (File (mk_file d (read_error f) (writable f)))
  | other => other
  end.
Proof.
  induction fs as [|[r n] fs IH]; simpl; [done|].
  destruct n as [w|f]; simpl.
  - destruct (decide (r = p)); [done | exact IH].
  - destruct (decide (r = p)) as [->|Hrp]; simpl.
    + by rewrite decide_True.
    + by rewrite decide_False.
Qed.

Lemma set_data_set_data p d1 d2 fs :
  FS.set_data p d2 (FS.set_data p d1 fs) = FS.set_data p d2 fs.
Proof.
  unfold FS.set_data. rewrite map_map. apply map_ext.
  intros [r [w|f]]; [done|].
  destruct (decide (r = p)) as [->|Hrp]; simpl.
  - by rewrite decide_True.
  - by rewrite decide_False.
Qed.

Lemma same_but_refl out fs0 : same_but out fs0 fs0.
Proof. done. Qed.

Lemma same_but_set_data out d fs1 fs2 :
  same_but out fs1 fs2 -> same_but out (FS.set_data out d fs1) fs2.
Proof. intros H d'. by rewrite set_data_set_data. Qed.

Lemma same_but_lookup out fs1 fs2 f :
  same_but out fs1 fs2 -> f <> out -> FS.lookup fs1 f = FS.lookup fs2 f.
Proof.
  intros H Hne.
  rewrite <- (lookup_set_data_ne out f "" fs1), <- (lookup_set_data_ne out f "" fs2) by done.
  by rewrite (H "").
Qed.

Lemma entry_text_same_but out fs1 fs2 f :
  same_but out fs1 fs2 -> f <> out -> entry_text fs1 f = entry_text fs2 f.
Proof.
  intros H Hne. unfold entry_text, read_text. simpl.
  rewrite (same_but_lookup out fs1 fs2 f H Hne).
  destruct (FS.lookup fs2 f) as [[w|fl]|]; [|destruct (read_error fl)|]; done.
Qed.

(** Reading inside [try ... except Exception] never fails and leaves the state. *)
Lemma read_or_diagnostic f s :
  try_except (read_text f)
    (fun e => ret ("<<ERROR READING FILE: " +:+ exn_str e +:+ ">>")) s
  = (Ok (entry_text (fs s) f), s, [EvRead f]).
Proof.
  unfold try_except, entry_text, read_text, ret. simpl.
  destruct (FS.lookup (fs s) f) as [[w|fl]|]; simpl; try done.
  destruct (read_error fl); done.
Qed.

Lemma join_cons_cons sep x y l :
  PyStr.join sep (x :: y :: l) = x +:+ sep +:+ PyStr.join sep (y :: l).
Proof. done. Qed.

Section WriterProperties.

Variable flushed : string -> string.
Variables root out : path.

Lemma fw_write_open text s acc :
  fw s = Some (out, acc) ->
  fw_write flushed text s
  = (Ok tt, mk_state (FS.set_data out (flushed (acc +:+ text)) (fs s))
              (Some (out, acc +:+ text)), []).
Proof. intros H. unfold fw_write. by rewrite H. Qed.

(** The loop from the entry of index [i] on: it cannot fail on files below
    [root], it appends the remaining entries to what was written, and it
    touches nothing but the content of [out]. *)
Lemma write_entries_spec n rest : forall i s acc,
  fw s = Some (out, acc) ->
  Forall (fun f => FS.below root f = true) rest ->
  i + length rest = n ->
  exists s' texts,
    write_entries flushed root n (combine (seq i (length rest)) rest) s
    = (Ok tt, s', map EvRead rest)
    /\ fw s' = Some (out, acc +:+ document root rest texts)
    /\ same_but out (fs s') (fs s)
    /\ Forall2 (fun f t => f <> out -> t = entry_text (fs s) f) rest texts.
Proof.
  induction rest as [|f rest IH]; intros i s acc Hfw Hbelow Hn.
  - exists s, []. simpl. rewrite append_nil_r.
    split; [done|]. split; [done|]. split; [done | constructor].
  - apply Forall_cons in Hbelow as [Hf Hrest]. simpl in Hn.
    destruct (below_relative_to _ _ Hf) as [Hrel Hne].
    set (header := "-- " +:+ Path.as_posix (drop (length root) f) +:+ nl +:+ nl).
    set (s1 := mk_state (FS.set_data out (flushed (acc +:+ header)) (fs s))
                 (Some (out, acc +:+ header))).
    set (text := entry_text (fs s1) f).
    set (acc2 := (acc +:+ header) +:+ (PyStr.rstrip text +:+ nl)).
    set (s2 := mk_state (FS.set_data out (flushed acc2) (fs s1)) (Some (out, acc2))).
    assert (Hposix : Path.as_posix (drop (length root) f)
                     = PyStr.join "/" (drop (length root) f)).
    { unfold Path.as_posix. by destruct (drop (length root) f). }
    assert (Hsame1 : same_but out (fs s1) (fs s)).
    { apply same_but_set_data, same_but_refl. }
    assert (Hsame2 : same_but out (fs s2) (fs s)).
    { simpl. by apply same_but_set_data. }
    destruct rest as [|g rest]; cbn [length] in Hn.
    + (* the last entry: no blank line after it *)
      exists s2, [text]. split; [|split; [|split]].
      * simpl. unfold bind, relative_to. rewrite Hrel. unfold ret at 1.
        rewrite (fw_write_open _ s acc Hfw). fold header s1.
        rewrite read_or_diagnostic. fold text.
        rewrite (fw_write_open _ s1 (acc +:+ header) eq_refl). fold acc2 s2.
        rewrite decide_False by lia. done.
      * unfold document, block. simpl. rewrite <- Hposix.
        unfold acc2, header. by rewrite !append_assoc.
      * exact Hsame2.
      * constructor; [|constructor]. intros Hfo. subst text.
        by apply (entry_text_same_but out).
    + (* an entry followed by another: one blank line, then the rest *)
      set (acc3 := acc2 +:+ nl).
      set (s3 := mk_state (FS.set_data out (flushed acc3) (fs s2)) (Some (out, acc3))).
      assert (Hsame3 : same_but out (fs s3) (fs s)).
      { simpl. by do 3 apply same_but_set_data. }
      destruct (IH (S i) s3 acc3 eq_refl Hrest ltac:(cbn [length]; lia))
        as (s' & texts & Hrun & Hfw' & Hsame' & Htexts).
      exists s', (text :: texts). split; [|split; [|split]].
      * change (combine (seq i (length (f :: g :: rest))) (f :: g :: rest))
          with ((i, f) :: combine (seq (S i) (length (g :: rest))) (g :: rest)).
        cbn [write_entries]. unfold bind at 1 2 3 4 5, relative_to.
        rewrite Hrel. unfold ret at 1.
        rewrite (fw_write_open _ s acc Hfw). fold header s1.
        rewrite read_or_diagnostic. fold text.
        rewrite (fw_write_open _ s1 (acc +:+ header) eq_refl). fold acc2 s2.
        rewrite decide_True by lia.
        rewrite (fw_write_open _ s2 acc2 eq_refl). fold acc3 s3.
        rewrite Hrun. done.
      * rewrite Hfw'. f_equal. f_equal.
        destruct texts as [|u texts]; [by inversion Htexts|].
        unfold document. cbn [zip_with]. rewrite join_cons_cons.
        generalize (PyStr.join nl (block root g u :: zip_with (block root) rest texts)).
        intros tail. unfold block. rewrite <- Hposix.
        unfold acc3, acc2, header. by rewrite !append_assoc.
      * intros d. rewrite (Hsame' d). apply Hsame3.
      * constructor.
        -- intros Hfo. subst text. by apply (entry_text_same_but out).
        -- eapply Forall2_impl; [exact Htexts|].
           intros h t Ht Hho. rewrite (Ht Hho).
           by apply (entry_text_same_but out).
Qed.

End WriterProperties.

Lemma lookup_app fs1 fs2 q :
  FS.lookup (fs1 ++ fs2)%list q =
  match FS.lookup fs1 q with Some n => Some n | None => FS.lookup fs2 q end.
Proof.
  induction fs1 as [|[r n] fs1 IH]; simpl; [done|].
  destruct (decide (r = q)); [done | exact IH].
Qed.

Lemma lookup_create_ne p q fs0 :
  p <> q -> FS.lookup (FS.create p fs0) q = FS.lookup fs0 q.
Proof.
  intros Hne. unfold FS.create. rewrite lookup_app. simpl.
  rewrite decide_False by done. by destruct (FS.lookup fs0 q).
Qed.

Lemma lookup_create_eq p fs0 :
  FS.lookup fs0 p = None ->
  FS.lookup (FS.create p fs0) p = Some (File (mk_file "" None true)).
Proof.
  intros Hnone. unfold FS.create. rewrite lookup_app, Hnone. simpl.
  by rewrite decide_True.
Qed.

(** What a successful [open] leaves: the writer on [out] with nothing
    written, [out] an empty regular file, everything else as it was. *)
Lemma open_w_ok out s s1 ev :
  open_w out s = (Ok tt, s1, ev) ->
  fw s1 = Some (out, "") /\ ev = [EvOpen out]
  /\ content (fs s1) out = Some ""
  /\ forall f, f <> out -> FS.lookup (fs s1) f = FS.lookup (fs s) f.
Proof.
  unfold open_w, content.
  destruct (FS.lookup (fs s) out) as [[w|fl]|] eqn:Hout.
  - intros [=].
  - destruct (writable fl); intros [= <- <-]; simpl.
    rewrite lookup_set_data_eq, Hout.
    repeat split; try done. intros f Hf. by apply lookup_set_data_ne.
  - destruct (FS.lookup (fs s) (Path.parent out)) as [[[|]|fl]|]; intros [= <- <-]; simpl.
    rewrite (lookup_create_eq _ _ Hout).
    repeat split; try done. intros f Hf. by apply lookup_create_ne.
Qed.

Lemma entry_text_lookup fs1 fs2 f :
  FS.lookup fs1 f = FS.lookup fs2 f -> entry_text fs1 f = entry_text fs2 f.
Proof.
  intros H. unfold entry_text, read_text. simpl. rewrite H.
  destruct (FS.lookup fs2 f) as [[w|fl]|]; [|destruct (read_error fl)|]; done.
Qed.

Lemma content_set_data out d fs0 :
  content fs0 out <> None -> content (FS.set_data out d fs0) out = Some d.
Proof.
  unfold content. rewrite lookup_set_data_eq.
  by destruct (FS.lookup fs0 out) as [[w|fl]|].
Qed.

Section MergerProperties.

Variable flushed : string -> string.

(** Once the output file is open, the merger cannot fail on files below
    [root]: it ends with the document in the output file, whatever reading
    the files gives. *)
Lemma write_merged_ok root files out s s1 ev1 :
  Forall (fun f => FS.below root f = true) files ->
  open_w out s = (Ok tt, s1, ev1) ->
  exists texts,
    write_merged flushed root files out s
    = (Ok tt, mk_state (FS.set_data out (document root files texts) (fs s1)) None,
       EvOpen out :: map EvRead files)
    /\ Forall2 (fun f t => f <> out -> t = entry_text (fs s) f) files texts.
Proof.
  intros Hbelow Hopen.
  destruct (open_w_ok _ _ _ _ Hopen) as (Hfw & -> & _ & Hother).
  destruct (write_entries_spec flushed root out (length files) files 0 s1 ""
              Hfw Hbelow eq_refl) as (s' & texts & Hrun & Hfw' & Hsame & Htexts).
  exists texts. split.
  - unfold write_merged, with_open, bind, finally, enumerate.
    rewrite Hopen, Hrun. unfold fw_close. rewrite Hfw'. simpl.
    by rewrite (Hsame _), app_nil_r.
  - eapply Forall2_impl; [exact Htexts|].
    intros f t Ht Hfo. rewrite (Ht Hfo). by apply entry_text_lookup, Hother.
Qed.

(** When the output file cannot be opened, the merger raises the error of
    [open] and does nothing else. *)
Lemma write_merged_raise root files out s e s1 ev1 :
  open_w out s = (Raise e, s1, ev1) ->
  write_merged flushed root files out s = (Raise e, s1, ev1).
Proof. intros Hopen. unfold write_merged, with_open, bind. by rewrite Hopen. Qed.

End MergerProperties.

(** ** Removing and rewriting the output file *)

Lemma lookup_remove_eq p fs0 : FS.lookup (FS.remove p fs0) p = None.
Proof.
  unfold FS.remove. induction fs0 as [|[r n] fs0 IH]; [done|].
  rewrite filter_cons. simpl. destruct (decide (r <> p)) as [Hne|Heq]; [|exact IH].
  simpl. by rewrite decide_False.
Qed.

Lemma lookup_remove_ne p q fs0 :
  p <> q -> FS.lookup (FS.remove p fs0) q = FS.lookup fs0 q.
Proof.
  intros Hpq. unfold FS.remove. induction fs0 as [|[r n] fs0 IH]; [done|].
  rewrite filter_cons. simpl. destruct (decide (r <> p)) as [Hne|Heq]; simpl.
  - by rewrite IH.
  - apply dec_stable in Heq as ->. by rewrite decide_False.
Qed.

Lemma remove_absent p fs0 : FS.lookup fs0 p = None -> FS.remove p fs0 = fs0.
Proof.
  unfold FS.remove. induction fs0 as [|[r n] fs0 IH]; [done|]. simpl.
  destruct (decide (r = p)) as [->|Hne]; [done|]. intros H.
  rewrite filter_cons. simpl. rewrite decide_True by done. by rewrite IH.
Qed.

Lemma remove_set_data p d fs0 : FS.remove p (FS.set_data p d fs0) = FS.remove p fs0.
Proof.
  unfold FS.remove, FS.set_data. induction fs0 as [|[r n] fs0 IH]; [done|].
  cbn [map]. destruct n as [w|fl].
  - rewrite !filter_cons. simpl. by rewrite IH.
  - destruct (decide (r = p)) as [->|Hne].
    + rewrite !filter_cons. simpl. by rewrite !decide_False by (intros H; by apply H).
    + rewrite !filter_cons. simpl. by rewrite IH.
Qed.

Lemma remove_create p fs0 : FS.remove p (FS.create p fs0) = FS.remove p fs0.
Proof.
  unfold FS.remove, FS.create. rewrite filter_app, filter_cons. simpl.
  rewrite decide_False by (intros H; by apply H). by rewrite filter_nil, app_nil_r.
Qed.

Lemma listing_set_data p d fs0 : FS.listing (FS.set_data p d fs0) = FS.listing fs0.
Proof.
  induction fs0 as [|[r n] fs0 IH]; [done|]. cbn [FS.set_data map].
  destruct n as [w|fl]; [|destruct (decide (r = p))]; simpl; by rewrite <- IH.
Qed.

Lemma is_dir_set_data p d fs0 q : FS.is_dir (FS.set_data p d fs0) q = FS.is_dir fs0 q.
Proof.
  unfold FS.is_dir. destruct (decide (p = q)) as [->|Hne].
  - rewrite lookup_set_data_eq. by destruct (FS.lookup fs0 q) as [[w|fl]|].
  - by rewrite lookup_set_data_ne.
Qed.

Lemma collect_ext fs1 fs2 root ps :
  (forall q, FS.is_dir fs1 q = FS.is_dir fs2 q) ->
  collect fs1 root ps = collect fs2 root ps.
Proof.
  intros H. induction ps as [|q ps IH]; [done|]. simpl. by rewrite H, IH.
Qed.

Lemma reachable_ext fs1 fs2 root q :
  (forall r, FS.is_dir fs1 r = FS.is_dir fs2 r) ->
  FS.reachable fs1 root q = FS.reachable fs2 root q.
Proof.
  intros H. unfold FS.reachable.
  induction (seq (length root) (length q - length root)) as [|k ks IH]; [done|].
  simpl. by rewrite H, IH.
Qed.

(** The enumerator does not look at the content of files. *)
Lemma iter_source_files_set_data p d fs0 root :
  iter_source_files (FS.set_data p d fs0) root = iter_source_files fs0 root.
Proof.
  unfold iter_source_files, FS.rglob. rewrite listing_set_data.
  rewrite (collect_ext (FS.set_data p d fs0) fs0) by apply is_dir_set_data.
  do 2 f_equal. apply list_filter_iff. intros q.
  by rewrite (reachable_ext (FS.set_data p d fs0) fs0) by apply is_dir_set_data.
Qed.

(** ** The steps of [main] *)

Lemma bind_assoc {A B C} (m : M A) (k : A -> M B) (h : B -> M C) s :
  bind (bind m k) h s = bind m (fun a => bind (k a) h) s.
Proof.
  unfold bind. destruct (m s) as [[[a|e] s1] ev1]; [|done].
  destruct (k a s1) as [[[b|e] s2] ev2]; [|done].
  destruct (h b s2) as [[r s3] ev3]. by rewrite app_assoc.
Qed.

Lemma bind_ext {A B} (m : M A) (k k' : A -> M B) s :
  (forall a s1, k a s1 = k' a s1) -> bind m k s = bind m k' s.
Proof.
  intros H. unfold bind. destruct (m s) as [[[a|e] s1] ev1]; [|done]. by rewrite H.
Qed.

Lemma main_steps flushed script_dir argv s :
  main flushed script_dir argv s
  = (a <- lift (parse_args argv) ;;
     root <- resolve_root script_dir a ;;
     remove_output (out_path_of script_dir a) ;;
     files <- scan root ;;
     write_merged flushed root files (out_path_of script_dir a) ;;
     print (summary (length files) (out_path_of script_dir a)))%py s.
Proof.
  unfold main. apply bind_ext. intros a s1. apply bind_ext. intros root s2.
  symmetry. apply bind_assoc.
Qed.

Lemma bind_ok_inv {A B} (m : M A) (k : A -> M B) s b s' ev :
  bind m k s = (Ok b, s', ev) ->
  exists a s1 ev1 ev2,
    m s = (Ok a, s1, ev1) /\ k a s1 = (Ok b, s', ev2) /\ ev = (ev1 ++ ev2)%list.
Proof.
  unfold bind. destruct (m s) as [[[a|e] s1] ev1]; [|done].
  destruct (k a s1) as [[r s2] ev2] eqn:Hk. intros [= -> -> <-].
  by exists a, s1, ev1, ev2.
Qed.

Lemma bind_ok {A B} (m : M A) (k : A -> M B) s a s1 ev1 :
  m s = (Ok a, s1, ev1) ->
  bind m k s = (let '(r, s2, ev2) := k a s1 in (r, s2, (ev1 ++ ev2)%list)).
Proof. intros H. unfold bind. by rewrite H. Qed.

Lemma bind_raise {A B} (m : M A) (k : A -> M B) s e s1 ev1 :
  m s = (Raise e, s1, ev1) -> bind m k s = (Raise e, s1, ev1).
Proof. intros H. unfold bind. by rewrite H. Qed.

(** The removal never fails: the file is gone when [unlink] succeeds, and
    everything stays as it was otherwise. *)
Lemma remove_output_spec out s :
  remove_output out s
  = (Ok tt,
     if can_unlink (fs s) out then mk_state (FS.remove out (fs s)) (fw s) else s,
     EvExists out :: if FS.exists_ (fs s) out then [EvUnlink out] else []).
Proof.
  unfold remove_output, bind, path_exists, try_except, unlink, can_unlink, FS.exists_, ret.
  destruct (FS.lookup (fs s) out) as [[w|fl]|] eqn:Hout; simpl; rewrite ?Hout; try done.
  destruct (FS.lookup (fs s) (Path.parent out)) as [[[|]|fl']|]; done.
Qed.

Lemma is_dir_exists fs0 p : FS.is_dir fs0 p = true -> FS.exists_ fs0 p = true.
Proof. unfold FS.is_dir, FS.exists_. by destruct (FS.lookup fs0 p). Qed.

(** The choice of the root touches nothing, and only looks at the root. *)
Lemma resolve_root_spec script_dir a s :
  exists r ev,
    resolve_root script_dir a s = (r, s, ev)
    /\ Forall (fun e => exists p, e = EvExists p \/ e = EvIsDir p) ev
    /\ match r with
       | Ok root =>
           if all a then root = script_dir
           else exists d, dir_name a = Some d
                  /\ root = Path.resolve (Path.joinpath script_dir d)
                  /\ FS.is_dir (fs s) root = true
       | Raise e =>
           all a = false
           /\ match dir_name a with
              | Some d =>
                  e = not_found (Path.resolve (Path.joinpath script_dir d))
                  /\ FS.is_dir (fs s) (Path.resolve (Path.joinpath script_dir d)) = false
              | None => is_Exception e = true
              end
       end.
Proof.
  unfold resolve_root. destruct (all a) eqn:Hall.
  { exists (Ok script_dir), []. split; [done|]. split; [constructor | done]. }
  destruct (dir_name a) as [d|] eqn:Hd.
  2:{ eexists _, []. split; [done|]. split; [constructor | done]. }
  remember (Path.resolve (Path.joinpath script_dir d)) as root eqn:Hroot.
  unfold bind, path_exists, path_is_dir, raise, ret.
  destruct (FS.is_dir (fs s) root) eqn:Hdir.
  - exists (Ok root), [EvExists root; EvIsDir root].
    split; [|split; [repeat constructor; eauto | by exists d]].
    simpl. rewrite (is_dir_exists _ _ Hdir). simpl. by rewrite Hdir.
  - destruct (FS.exists_ (fs s) root) eqn:He.
    + exists (Raise (not_found root)), [EvExists root; EvIsDir root].
      split; [|split; [repeat constructor; eauto | done]].
      simpl. rewrite ?He. simpl. by rewrite ?Hdir.
    + exists (Raise (not_found root)), [EvExists root].
      split; [|split; [repeat constructor; eauto | done]].
      simpl. by rewrite ?He.
Qed.

Lemma main_parse_raise flushed script_dir argv e s :
  parse_args argv = Raise e -> main flushed script_dir argv s = (Raise e, s, []).
Proof. intros H. rewrite main_steps. unfold bind, lift. by rewrite H. Qed.

Lemma main_root_raise flushed script_dir argv a e s ev :
  parse_args argv = Ok a ->
  resolve_root script_dir a s = (Raise e, s, ev) ->
  main flushed script_dir argv s = (Raise e, s, ev).
Proof.
  intros Ha Hr. rewrite main_steps. unfold bind at 1, lift. rewrite Ha.
  by rewrite (bind_raise _ _ _ _ _ _ Hr).
Qed.

(** Once the root is chosen, the run is the removal, the scan, the merge and
    the summary. *)
Lemma main_root_ok flushed script_dir argv a root s evr :
  parse_args argv = Ok a ->
  resolve_root script_dir a s = (Ok root, s, evr) ->
  main flushed script_dir argv s
  = (let out := out_path_of script_dir a in
     let files := iter_source_files (fs (after_removal out s)) root in
     let '(r, s', evw) := write_merged flushed root files out (after_removal out s) in
     (r, s',
      (evr ++ removal_events out s ++ EvScan root files
           :: evw ++ match r with
                     | Ok _ => [EvPrint (summary (length files) out)]
                     | Raise _ => []
                     end)%list)).
Proof.
  intros Ha Hr. rewrite main_steps. unfold bind at 1, lift. rewrite Ha.
  rewrite (bind_ok _ _ _ _ _ _ Hr). cbv zeta.
  rewrite (bind_ok _ _ _ _ _ _ (remove_output_spec _ _)).
  fold (after_removal (out_path_of script_dir a) s).
  fold (removal_events (out_path_of script_dir a) s).
  unfold bind at 1, scan at 1.
  unfold bind, print.
  destruct (write_merged _ _ _ _ _) as [[[[]|e] s'] evw]; simpl;
    by rewrite ?app_nil_r, <- ?app_assoc.
Qed.

Lemma stdout_app ev1 ev2 : stdout (ev1 ++ ev2)%list = (stdout ev1 ++ stdout ev2)%list.
Proof. apply flat_map_app. Qed.

Lemma stdout_stat ev :
  Forall (fun e => exists p, e = EvExists p \/ e = EvIsDir p) ev -> stdout ev = [].
Proof.
  induction 1 as [|e ev (p & [->| ->]) _ IH]; [done| |]; exact IH.
Qed.

Lemma stdout_reads files : stdout (map EvRead files) = [].
Proof. induction files as [|f files IH]; [done | exact IH]. Qed.

Lemma stdout_removal out s : stdout (removal_events out s) = [].
Proof. unfold removal_events. by destruct (FS.exists_ (fs s) out). Qed.

(** [open] only looks at the file system. *)
Lemma open_w_fs out s s' s1 ev :
  fs s = fs s' -> open_w out s = (Ok tt, s1, ev) -> open_w out s' = (Ok tt, s1, ev).
Proof.
  unfold open_w. intros <-.
  destruct (FS.lookup (fs s) out) as [[w|fl]|]; [done| |].
  - by destruct (writable fl).
  - by destruct (FS.lookup (fs s) (Path.parent out)) as [[[|]|fl]|].
Qed.

Lemma write_merged_after_open flushed root files out s s' sB ev :
  open_w out s = (Ok tt, sB, ev) ->
  open_w out s' = (Ok tt, sB, ev) ->
  write_merged flushed root files out s' = write_merged flushed root files out s.
Proof.
  intros H H'. unfold write_merged, with_open, bind. by rewrite H, H'.
Qed.

Lemma write_merged_ok_inv flushed root files out s s' ev :
  write_merged flushed root files out s = (Ok tt, s', ev) ->
  exists sB, open_w out s = (Ok tt, sB, [EvOpen out]).
Proof.
  intros H. destruct (open_w out s) as [[[[]|e] sB] evo] eqn:Ho.
  - destruct (open_w_ok _ _ _ _ Ho) as (_ & -> & _). by exists sB.
  - by rewrite (write_merged_raise _ _ _ _ _ _ _ _ Ho) in H.
Qed.

Lemma lookup_after_removal out s p :
  p <> out -> FS.lookup (fs (after_removal out s)) p = FS.lookup (fs s) p.
Proof.
  intros Hne. unfold after_removal. destruct (can_unlink (fs s) out); [|done].
  simpl. by apply lookup_remove_ne.
Qed.

(** After a run, a second removal leads to the state in which the first run
    scanned and opened its output. *)
Lemma removal_after_run out s0 sB ev doc :
  open_w out (after_removal out s0) = (Ok tt, sB, ev) ->
  let s1 := mk_state (FS.set_data out doc (fs sB)) None in
  (forall root, iter_source_files (fs (after_removal out s1)) root
                = iter_source_files (fs (after_removal out s0)) root)
  /\ open_w out (after_removal out s1) = (Ok tt, sB, ev).
Proof.
  intros Hopen s1.
  destruct (FS.lookup (fs (after_removal out s0)) out) as [[w|fl]|] eqn:Hout.
  - unfold open_w in Hopen. by rewrite Hout in Hopen.
  - (* the file was there and could not be removed: it was truncated *)
    assert (Hkeep : after_removal out s0 = s0).
    { unfold after_removal in *. destruct (can_unlink (fs s0) out); [|done].
      simpl in Hout. by rewrite lookup_remove_eq in Hout. }
    rewrite Hkeep in *.
    assert (Hcannot : can_unlink (fs s0) out = false).
    { unfold after_removal in Hkeep. destruct (can_unlink (fs s0) out) eqn:Hc; [|done].
      rewrite <- Hkeep in Hout. simpl in Hout. by rewrite lookup_remove_eq in Hout. }
    unfold open_w in Hopen. rewrite Hout in Hopen.
    destruct (writable fl) eqn:Hw; [|done]. injection Hopen as <- <-.
    subst s1. cbn [fs] in *. rewrite set_data_set_data.
    assert (Hkeep1 : after_removal out (mk_state (FS.set_data out doc (fs s0)) None)
                     = mk_state (FS.set_data out doc (fs s0)) None).
    { unfold after_removal, can_unlink. cbn [fs].
      rewrite lookup_set_data_eq, Hout.
      destruct (decide (out = Path.parent out)) as [Heq|Hne].
      - rewrite <- Heq, lookup_set_data_eq, Hout. done.
      - rewrite (lookup_set_data_ne _ _ _ _ Hne).
        unfold can_unlink in Hcannot. rewrite Hout in Hcannot.
        by destruct (FS.lookup (fs s0) (Path.parent out)) as [[[|]|fl']|]. }
    rewrite Hkeep1. cbn [fs]. split.
    + intros root. apply iter_source_files_set_data.
    + unfold open_w. cbn [fs]. rewrite lookup_set_data_eq, Hout. cbn [writable].
      by rewrite Hw, set_data_set_data.
  - (* the file was absent or removed: it was created *)
    unfold open_w in Hopen. rewrite Hout in Hopen.
    destruct (FS.lookup (fs (after_removal out s0)) (Path.parent out))
      as [[[|]|fl]|] eqn:Hpar; try done.
    injection Hopen as <- <-. subst s1. cbn [fs].
    assert (Hne : out <> Path.parent out).
    { intros Heq. rewrite <- Heq, Hout in Hpar. done. }
    assert (Hrm : after_removal out
                    (mk_state (FS.set_data out doc (FS.create out (fs (after_removal out s0)))) None)
                  = mk_state (fs (after_removal out s0)) None).
    { unfold after_removal at 1, can_unlink. cbn [fs fw].
      rewrite lookup_set_data_eq, (lookup_create_eq _ _ Hout).
      rewrite (lookup_set_data_ne _ _ _ _ Hne), (lookup_create_ne _ _ _ Hne), Hpar.
      by rewrite remove_set_data, remove_create, (remove_absent _ _ Hout). }
    rewrite Hrm. cbn [fs]. split; [done|].
    unfold open_w. cbn [fs]. by rewrite Hout, Hpar.
Qed.

Lemma iter_source_files_all_below fs0 root :
  Forall (fun f => FS.below root f = true) (iter_source_files fs0 root).
Proof. apply Forall_forall. intros f. apply iter_source_files_below. Qed.

(** A successful run, taken apart. *)
Lemma main_ok_inv flushed script_dir argv s0 s1 ev :
  main flushed script_dir argv s0 = (Ok tt, s1, ev) ->
  exists a root evr sB texts,
    let out := out_path_of script_dir a in
    let sA := after_removal out s0 in
    let files := iter_source_files (fs sA) root in
    parse_args argv = Ok a
    /\ resolve_root script_dir a s0 = (Ok root, s0, evr)
    /\ Forall (fun e => exists p, e = EvExists p \/ e = EvIsDir p) evr
    /\ open_w out sA = (Ok tt, sB, [EvOpen out])
    /\ Forall2 (fun f t => f <> out -> t = entry_text (fs sA) f) files texts
    /\ s1 = mk_state (FS.set_data out (document root files texts) (fs sB)) None
    /\ ev = (evr ++ removal_events out s0 ++ EvScan root files
                 :: (EvOpen out :: map EvRead files)
                 ++ [EvPrint (summary (length files) out)])%list.
Proof.
  intros Hmain.
  destruct (parse_args argv) as [a|e] eqn:Ha;
    [|by rewrite (main_parse_raise _ _ _ _ _ Ha) in Hmain].
  destruct (resolve_root_spec script_dir a s0) as ([root|e] & evr & Hr & Hstat & _);
    [|by rewrite (main_root_raise _ _ _ _ _ _ _ Ha Hr) in Hmain].
  rewrite (main_root_ok _ _ _ _ _ _ _ Ha Hr) in Hmain. cbv zeta in Hmain.
  destruct (write_merged _ _ _ _ _) as [[r s'] evw] eqn:Hw.
  injection Hmain as -> -> <-.
  destruct (write_merged_ok_inv _ _ _ _ _ _ _ Hw) as [sB Hopen].
  destruct (write_merged_ok flushed root
              (iter_source_files (fs (after_removal (out_path_of script_dir a) s0)) root)
              _ _ _ _ (iter_source_files_all_below _ _) Hopen) as (texts & Hw' & Htexts).
  rewrite Hw in Hw'. injection Hw' as -> ->.
  by exists a, root, evr, sB, texts.
Qed.


Lemma open_ok_not_dir out s0 sB ev :
  open_w out (after_removal out s0) = (Ok tt, sB, ev) -> FS.is_dir (fs s0) out = false.
Proof.
  unfold after_removal, can_unlink, FS.is_dir.
  destruct (FS.lookup (fs s0) out) as [[w|fl]|] eqn:Hout; [|done..].
  unfold open_w. by rewrite Hout.
Qed.

Lemma last_dir_has_dir argv d : last_dir argv = Some d -> has_dir argv = true.
Proof.
  induction argv as [|[|d'|o] argv IH]; simpl; [done| | |]; auto.
Qed.

Lemma parse_opts_spec argv : forall ns seen_all seen_dir,
  seen_all && seen_dir = false ->
  match parse_opts argv ns seen_all seen_dir with
  | Ok a =>
      xorb (seen_all || has_all argv) (seen_dir || has_dir argv) = true
      /\ all a = all ns || has_all argv
      /\ dir_name a = match last_dir argv with Some d => Some d | None => dir_name ns end
  | Raise e =>
      seen_all || has_all argv = seen_dir || has_dir argv
      /\ exists msg, e = SystemExit 2 msg
  end.
Proof.
  induction argv as [|[|d|o] argv IH]; intros ns sa sd Hinv; simpl.
  - destruct sa, sd; simpl in *; try done; rewrite ?orb_false_r; eauto.
  - destruct sd; simpl.
    + rewrite orb_true_r. eauto.
    + specialize (IH (mk_args true (dir_name ns) (output ns)) true false eq_refl).
      destruct (parse_opts argv _ true false) as [a|e]; simpl in *.
      * rewrite !orb_true_r. tauto.
      * by rewrite orb_true_r.
  - destruct sa; simpl.
    + rewrite orb_true_r. eauto.
    + specialize (IH (mk_args (all ns) (Some d) (output ns)) false true eq_refl).
      destruct (parse_opts argv _ false true) as [a|e]; simpl in *.
      * rewrite !orb_true_r. destruct IH as (? & ? & ->).
        repeat split; try done. by destruct (last_dir argv).
      * by rewrite orb_true_r.
  - apply (IH (mk_args (all ns) (dir_name ns) o) sa sd Hinv).
Qed.

(** The command line is accepted exactly when one of the two modes is given. *)
Lemma parse_args_spec argv :
  match parse_args argv with
  | Ok a =>
      xorb (has_all argv) (has_dir argv) = true
      /\ all a = has_all argv /\ dir_name a = last_dir argv
  | Raise e => has_all argv = has_dir argv /\ exists msg, e = SystemExit 2 msg
  end.
Proof.
  unfold parse_args.
  pose proof (parse_opts_spec argv (mk_args false None OUTPUT_FILENAME) false false eq_refl) as H.
  destruct (parse_opts argv _ false false) as [a|e]; simpl in *; [|done].
  destruct H as (? & ? & ->). repeat split; try done. by destruct (last_dir argv).
Qed.


(** When the output file is absent or can be removed, it is not among the
    files the run scans. *)
Lemma output_not_scanned out s root :
  FS.exists_ (fs s) out = false \/ can_unlink (fs s) out = true ->
  out ∉ iter_source_files (fs (after_removal out s)) root.
Proof.
  intros Hcase (Hrg & _)%elem_of_iter_source_files.
  apply elem_of_rglob in Hrg as (_ & _ & Hex).
  unfold after_removal, FS.exists_ in *.
  destruct (can_unlink (fs s) out) eqn:Hcan.
  - cbn [fs] in Hex. by rewrite lookup_remove_eq in Hex.
  - destruct Hcase as [Habs|?]; [|done]. by rewrite Hex in Habs.
Qed.

(** * The claims *)

(** C1, at a root below a directory named [build]: [a.py] is a file under
    the root, passes the allowlist test and has no directory at all between
    itself and the root, yet the enumerator returns nothing, because it also
    consults the names of the directories above the root. *)
Theorem excluded_name_above_root_hides_files :
  selected fs_under_build ["srv"; "build"; "proj"] ["srv"; "build"; "proj"; "a.py"] = true
  /\ strictly_between ["srv"; "build"; "proj"] ["srv"; "build"; "proj"; "a.py"] = []
  /\ iter_source_files fs_under_build ["srv"; "build"; "proj"] = [].
Proof. by vm_compute. Qed.

(** C2, where the output file of an earlier run cannot be removed: the run
    succeeds, and the output file is among the files it scanned and merged. *)
Theorem output_file_scanned_when_unlink_fails (flushed : string -> string) :
  exists s' ev,
    main flushed ["proj"] [OptAll] (mk_state fs_read_only_dir None) = (Ok tt, s', ev)
    /\ EvScan ["proj"] [ ["proj"; "a.py"]; ["proj"; "document.txt"] ] ∈ ev
    /\ stdout ev = [summary 2 ["proj"; "document.txt"]].
Proof.
  eexists _, _. split; [vm_compute; reflexivity|]. split.
  - rewrite !elem_of_cons. right. right. by left.
  - reflexivity.
Qed.







(** What the merge of the two bad files leaves in the output. *)
Example bad_files_document :
  content (fs (write_merged (fun _ => "") ["r"] (iter_source_files fs_bad_files ["r"])
                 ["r"; "document.txt"] (mk_state fs_bad_files None)).1.2)
    ["r"; "document.txt"]
  = Some ("-- a.py" +:+ nl +:+ nl
          +:+ "<<ERROR READING FILE: [Errno 13] Permission denied: '/r/a.py'>>" +:+ nl
          +:+ nl
          +:+ "-- b.txt" +:+ nl +:+ nl +:+ PyStr.REPLACEMENT +:+ "x" +:+ nl).
Proof. by vm_compute. Qed.

(** C7. A second run with the same arguments, started in the state the
    first run left, ends in that same state, with the same content in the
    output file, and prints the same summary. *)
Theorem rerun_same_output flushed script_dir argv s0 s1 ev1 :
  main flushed script_dir argv s0 = (Ok tt, s1, ev1) ->
  exists ev2,
    main flushed script_dir argv s1 = (Ok tt, s1, ev2) /\ stdout ev2 = stdout ev1.
Proof.
  intros Hmain.
  destruct (main_ok_inv _ _ _ _ _ _ Hmain)
    as (a & root & evr & sB & texts & Ha & Hr & Hstat & Hopen & Htexts & Hs1 & Hev).
  set (out := out_path_of script_dir a) in *.
  set (sA := after_removal out s0) in *.
  set (files := iter_source_files (fs sA) root) in *.
  (* the first run as a run of the merger *)
  assert (Hw : write_merged flushed root files out sA
               = (Ok tt, s1, EvOpen out :: map EvRead files)).
  { destruct (write_merged_ok flushed root files out sA sB _
                (iter_source_files_all_below _ _) Hopen) as (texts' & Hw & _).
    rewrite main_root_ok with (a := a) (root := root) (evr := evr) in Hmain by done.
    cbv zeta in Hmain. fold out sA files in Hmain. rewrite Hw in Hmain.
    injection Hmain as <- _. exact Hw. }
  destruct (removal_after_run out s0 sB _ (document root files texts) Hopen)
    as [Hfiles Hopen']. rewrite <- Hs1 in Hfiles, Hopen'.
  (* the root is found again *)
  assert (Hr' : exists evr', resolve_root script_dir a s1 = (Ok root, s1, evr')
                  /\ stdout evr' = []).
  { destruct (resolve_root_spec script_dir a s0) as (r0 & ev0 & Hr0 & _ & Hspec0).
    rewrite Hr in Hr0. injection Hr0 as <- <-.
    destruct (resolve_root_spec script_dir a s1) as (r' & evr' & Hr' & Hstat' & Hspec').
    exists evr'. split; [|by apply stdout_stat].
    destruct (all a) eqn:Hall.
    - destruct r' as [root'|e]; [by subst | by destruct Hspec'].
    - destruct Hspec0 as (d & Hd & Hroot & Hdir).
      assert (Hne : root <> out).
      { intros Heq. rewrite Heq in Hdir.
        by rewrite (open_ok_not_dir _ _ _ _ Hopen) in Hdir. }
      assert (Hdir1 : FS.is_dir (fs s1) root = true).
      { destruct (open_w_ok _ _ _ _ Hopen) as (_ & _ & _ & Hother).
        unfold FS.is_dir in *. rewrite Hs1. cbn [fs].
        rewrite lookup_set_data_ne by done. rewrite Hother by done.
        subst sA. by rewrite lookup_after_removal. }
      destruct r' as [root'|e].
      + destruct Hspec' as (d' & Hd' & -> & _). rewrite Hd in Hd'.
        injection Hd' as <-. by rewrite <- Hroot in Hr'.
      + destruct Hspec' as [_ Hspec']. rewrite Hd, <- Hroot in Hspec'.
        destruct Hspec' as [_ Hno]. congruence. }
  destruct Hr' as (evr' & Hr' & Hout').
  exists (evr' ++ removal_events out s1 ++ EvScan root files
               :: (EvOpen out :: map EvRead files)
               ++ [EvPrint (summary (length files) out)])%list.
  split.
  - rewrite main_root_ok with (a := a) (root := root) (evr := evr') by done.
    cbv zeta. fold out. rewrite Hfiles. fold sA files.
    rewrite (write_merged_after_open flushed root files out sA _ sB _ Hopen Hopen').
    by rewrite Hw.
  - rewrite Hev, !stdout_app, Hout', (stdout_stat _ Hstat), !stdout_removal. done.
Qed.

Lemma rerun_same_output_witness :
  exists ev2,
    main (fun _ => "") ["r"] [OptAll]
      (main (fun _ => "") ["r"] [OptAll] (mk_state fs_two_files None)).1.2
    = (Ok tt, (main (fun _ => "") ["r"] [OptAll] (mk_state fs_two_files None)).1.2, ev2)
    /\ stdout ev2 = stdout (main (fun _ => "") ["r"] [OptAll] (mk_state fs_two_files None)).2.
Proof.
  apply (rerun_same_output (fun _ => "") ["r"] [OptAll] (mk_state fs_two_files None)).
  by vm_compute.
Defined.

(** C8. A run that succeeds has created the output file, which holds the
    document of the files it scanned (nothing at all when there are none),
    and has printed one line, the summary with the number of files merged
    and the path of the output. *)
Theorem success_summary flushed script_dir argv s s' ev :
  main flushed script_dir argv s = (Ok tt, s', ev) ->
  exists a root files texts,
    let out := out_path_of script_dir a in
    parse_args argv = Ok a
    /\ EvScan root files ∈ ev
    /\ stdout ev
       = ["[완료] " +:+ PyStr.of_nat (length files)
          +:+ "개 파일을 병합했습니다 -> " +:+ Path.str out]
    /\ content (fs s') out = Some (document root files texts)
    /\ (files = [] -> content (fs s') out = Some "").
Proof.
  intros Hmain.
  destruct (main_ok_inv _ _ _ _ _ _ Hmain)
    as (a & root & evr & sB & texts & Ha & Hr & Hstat & Hopen & Htexts & -> & ->).
  set (out := out_path_of script_dir a) in *.
  set (files := iter_source_files (fs (after_removal out s)) root) in *.
  assert (Hc : content (FS.set_data out (document root files texts) (fs sB)) out
               = Some (document root files texts)).
  { apply content_set_data.
    destruct (open_w_ok _ _ _ _ Hopen) as (_ & _ & Hc & _). by rewrite Hc. }
  exists a, root, files, texts. cbv zeta. fold out.
  split; [done|]. split; [|split; [|split]].
  - rewrite !elem_of_app, elem_of_cons. right. right. by left.
  - rewrite !stdout_app, (stdout_stat _ Hstat), stdout_removal.
    cbn [stdout flat_map app]. fold (stdout (map EvRead files ++ [EvPrint (summary (length files) out)])).
    by rewrite stdout_app, stdout_reads.
  - exact Hc.
  - intros Hnil. cbn [fs]. rewrite Hc. by rewrite Hnil.
Qed.

Lemma success_summary_witness :
  exists a root files texts,
    let out := out_path_of ["r"] a in
    parse_args [OptAll] = Ok a
    /\ EvScan root files
       ∈ (main (fun _ => "") ["r"] [OptAll] (mk_state fs_no_match None)).2
    /\ stdout (main (fun _ => "") ["r"] [OptAll] (mk_state fs_no_match None)).2
       = ["[완료] " +:+ PyStr.of_nat (length files)
          +:+ "개 파일을 병합했습니다 -> " +:+ Path.str out]
    /\ content (fs (main (fun _ => "") ["r"] [OptAll] (mk_state fs_no_match None)).1.2) out
       = Some (document root files texts)
    /\ (files = [] ->
        content (fs (main (fun _ => "") ["r"] [OptAll] (mk_state fs_no_match None)).1.2) out
        = Some "").
Proof.
  apply (success_summary (fun _ => "") ["r"] [OptAll] (mk_state fs_no_match None)).
  by vm_compute.
Defined.

(** The run on the tree without a match: an empty output file, and the
    summary with the count 0. *)
Example no_match_run :
  content (fs (main (fun _ => "") ["r"] [OptAll] (mk_state fs_no_match None)).1.2)
    ["r"; "document.txt"] = Some ""
  /\ stdout (main (fun _ => "") ["r"] [OptAll] (mk_state fs_no_match None)).2
     = ["[완료] 0개 파일을 병합했습니다 -> /r/document.txt"].
Proof. by vm_compute. Qed.

(** C9. With neither or both of the two modes the run ends with status 2
    before anything is looked at or touched.  With the mode [-d] alone the
    root is the location of the tool joined with the name; when that is no
    existing directory the run ends with status 1 and the message naming it,
    having only looked at the root: nothing was scanned, removed or written.
    When it is one, that directory is what the run scans. *)
Theorem usage_and_target_errors flushed script_dir argv s :
  (has_all argv = has_dir argv ->
   exists msg, main flushed script_dir argv s = (Raise (SystemExit 2 msg), s, []))
  /\ (forall d,
        has_all argv = false -> last_dir argv = Some d ->
        let root := Path.resolve (Path.joinpath script_dir d) in
        (FS.is_dir (fs s) root = false ->
         exists ev,
           main flushed script_dir argv s
           = (Raise (SystemExit 1 ("[에러] 디렉토리를 찾을 수 없습니다: " +:+ Path.str root)), s, ev)
           /\ Forall (fun e => exists p, e = EvExists p \/ e = EvIsDir p) ev)
        /\ (FS.is_dir (fs s) root = true ->
            exists r s' ev files,
              main flushed script_dir argv s = (r, s', ev) /\ EvScan root files ∈ ev)).
Proof.
  pose proof (parse_args_spec argv) as Hparse. split.
  - intros Hmodes. destruct (parse_args argv) as [a|e] eqn:Ha.
    + destruct Hparse as (Hx & _). rewrite Hmodes in Hx. by destruct (has_dir argv).
    + destruct Hparse as (_ & msg & ->). exists msg. by apply main_parse_raise.
  - intros d Hall Hlast root.
    pose proof (last_dir_has_dir _ _ Hlast) as Hdir.
    destruct (parse_args argv) as [a|e] eqn:Ha;
      [|destruct Hparse as (Hx & _); congruence].
    destruct Hparse as (_ & Hall_a & Hdir_a). rewrite Hall in Hall_a. rewrite Hlast in Hdir_a.
    destruct (resolve_root_spec script_dir a s) as (r & evr & Hr & Hstat & Hspec).
    rewrite Hall_a, ?Hdir_a in Hspec. split.
    + intros Hno. destruct r as [root'|e].
      * destruct Hspec as (d' & [= <-] & -> & Hyes). fold root in Hyes. congruence.
      * destruct Hspec as (_ & -> & _). exists evr. split; [|done].
        by apply (main_root_raise _ _ _ a).
    + intros Hyes. destruct r as [root'|e].
      * destruct Hspec as (d' & [= <-] & -> & _). fold root in Hr.
        rewrite (main_root_ok _ _ _ _ _ _ _ Ha Hr). cbv zeta.
        destruct (write_merged _ _ _ _ _) as [[r s'] evw].
        eexists r, s', _, _. split; [done|].
        rewrite !elem_of_app, elem_of_cons. right. right. by left.
      * destruct Hspec as (_ & _ & Hno). fold root in Hno. congruence.
Qed.

Lemma usage_and_target_errors_witness :
  (exists msg, main (fun _ => "") ["r"] [OptAll; OptDir "sub"] (mk_state fs_two_files None)
               = (Raise (SystemExit 2 msg), mk_state fs_two_files None, []))
  /\ (exists ev,
        main (fun _ => "") ["r"] [OptDir "nowhere"] (mk_state fs_two_files None)
        = (Raise (SystemExit 1 "[에러] 디렉토리를 찾을 수 없습니다: /r/nowhere"),
           mk_state fs_two_files None, ev)
        /\ Forall (fun e => exists p, e = EvExists p \/ e = EvIsDir p) ev)
  /\ (exists r s' ev files,
        main (fun _ => "") ["r"] [OptDir "sub"] (mk_state fs_two_files None) = (r, s', ev)
        /\ EvScan ["r"; "sub"] files ∈ ev).
Proof.
  split; [|split].
  - apply (proj1 (usage_and_target_errors (fun _ => "") ["r"] [OptAll; OptDir "sub"]
                    (mk_state fs_two_files None))).
    reflexivity.
  - apply (proj1 (proj2 (usage_and_target_errors (fun _ => "") ["r"] [OptDir "nowhere"]
                           (mk_state fs_two_files None))
                    "nowhere" eq_refl eq_refl)).
    reflexivity.
  - apply (proj2 (proj2 (usage_and_target_errors (fun _ => "") ["r"] [OptDir "sub"]
                           (mk_state fs_two_files None))
                    "sub" eq_refl eq_refl)).
    reflexivity.
Defined.




(** * More properties of the code *)

(** ** More on the enumerator *)

Lemma NoDup_listing fs0 : NoDup (FS.listing fs0).
Proof.
  induction fs0 as [|[q n] fs0 IH]; simpl; [constructor|].
  apply NoDup_cons. split.
  - intros [Hne _]%list_elem_of_filter. by apply Hne.
  - by apply NoDup_filter.
Qed.

Lemma collect_filter fs0 root ps :
  collect fs0 root ps = filter (kept fs0 root) ps.
Proof.
  induction ps as [|p ps IH]; [done|]. cbn [collect]. rewrite filter_cons, <- IH.
  destruct (decide (kept fs0 root p)) as [(Hd & Hs & Ha)|Hno].
  - by rewrite Hd, Hs, Ha.
  - destruct (FS.is_dir fs0 p) eqn:Hd; [done|].
    destruct (existsb _ _) eqn:Hs; [done|].
    destruct (is_allowed_file p) eqn:Ha; [|done].
    by destruct Hno.
Qed.



Lemma should_skip_dir_spec q : should_skip_dir q = true <-> Path.name q ∈ EXCLUDE_DIRS.
Proof. unfold should_skip_dir. apply bool_decide_eq_true. Qed.


Lemma NoDup_iter_source_files fs0 root : NoDup (iter_source_files fs0 root).
Proof.
  unfold iter_source_files. rewrite sort_by_Permutation, collect_filter.
  apply NoDup_filter. unfold FS.rglob. apply NoDup_filter, NoDup_listing.
Qed.

(** X1. The enumerator returns a path exactly when a walk from the root
    reaches it strictly below the root, it is a regular file, it passes the
    allowlist test, and none of its ancestors up to [/], the root alone
    excepted, bears an excluded name. *)
Theorem iter_source_files_exact fs0 root p :
  p ∈ iter_source_files fs0 root <->
  FS.below root p = true
  /\ FS.reachable fs0 root p = true
  /\ (exists fl, FS.lookup fs0 p = Some (File fl))
  /\ is_allowed_file p = true
  /\ (forall q, q ∈ Path.parents p -> q <> root -> Path.name q ∉ EXCLUDE_DIRS).
Proof.
  rewrite elem_of_iter_source_files, elem_of_rglob, existsb_false_iff.
  unfold FS.exists_, FS.is_dir. split.
  - intros ((Hb & Hr & Hex) & Hd & Hs & Ha).
    repeat split; try done.
    + destruct (FS.lookup fs0 p) as [[w|fl]|]; try done. by exists fl.
    + intros q Hq Hne Hbad. apply should_skip_dir_spec in Hbad.
      rewrite Hs in Hbad; [done|]. by apply list_elem_of_filter.
  - intros (Hb & Hr & (fl & Hfl) & Ha & Hs). rewrite Hfl.
    repeat split; try done.
    intros q [Hne Hq]%list_elem_of_filter.
    destruct (should_skip_dir q) eqn:Hbad; [|done].
    apply should_skip_dir_spec in Hbad. by destruct (Hs q Hq Hne).
Qed.

(** X2. The enumerator returns no path twice. *)
Theorem iter_source_files_NoDup fs0 root : NoDup (iter_source_files fs0 root).
Proof. apply NoDup_iter_source_files. Qed.

(** X3. A path with a component of an excluded name before its last one is
    never returned, wherever that component sits, unless that component is
    the last one of the root itself. *)
Theorem excluded_component_never_returned fs0 root pre name rest :
  name ∈ EXCLUDE_DIRS -> rest <> [] -> (pre ++ [name])%list <> root ->
  (pre ++ name :: rest)%list ∉ iter_source_files fs0 root.
Proof.
  intros Hname Hrest Hroot (_ & _ & Hs & _)%elem_of_iter_source_files.
  rewrite existsb_false_iff in Hs.
  assert (Hskip : should_skip_dir (pre ++ [name])%list = true).
  { apply should_skip_dir_spec. unfold Path.name. by rewrite last_last. }
  rewrite Hs in Hskip; [done|].
  apply list_elem_of_filter. split; [done|].
  apply elem_of_parents. exists (length (pre ++ [name])%list). split.
  - rewrite !length_app. destruct rest; [done|]. simpl. lia.
  - rewrite (cons_middle name pre rest), app_assoc. by rewrite take_app_length.
Qed.

Lemma excluded_component_never_returned_witness :
  (["r"] ++ "node_modules" :: ["x.js"])%list ∉ iter_source_files fs_node_modules ["r"].
Proof.
  apply (excluded_component_never_returned fs_node_modules ["r"] ["r"] "node_modules" ["x.js"]).
  - by vm_compute.
  - discriminate.
  - discriminate.
Defined.

(** X4. When the root is not a directory, the enumerator returns the empty
    list. *)
Theorem iter_source_files_no_directory fs0 root :
  FS.is_dir fs0 root = false -> iter_source_files fs0 root = [].
Proof.
  intros Hroot. apply elem_of_nil_inv. intros p (Hrg & _)%elem_of_iter_source_files.
  apply elem_of_rglob in Hrg as ([Hpre Hlen]%below_spec & Hreach & _).
  unfold FS.reachable in Hreach. rewrite forallb_forall in Hreach.
  specialize (Hreach (length root)). rewrite Hpre, Hroot in Hreach.
  discriminate Hreach. apply in_seq. lia.
Qed.

Lemma iter_source_files_no_directory_witness :
  iter_source_files fs_two_files ["r"; "a.py"] = []
  /\ iter_source_files fs_two_files ["nowhere"] = [].
Proof.
  split; apply iter_source_files_no_directory; reflexivity.
Defined.




(** ** More on the run *)

Lemma open_w_raise out s e s1 ev :
  open_w out s = (Raise e, s1, ev) ->
  s1 = s /\ ev = [EvOpen out] /\ exists m, e = OSError m.
Proof.
  unfold open_w.
  destruct (FS.lookup (fs s) out) as [[w|fl]|].
  - intros [= <- <- <-]. unfold EISDIR. eauto.
  - destruct (writable fl); intros [= <- <- <-]. unfold EACCES. eauto.
  - destruct (FS.lookup (fs s) (Path.parent out)) as [[[|]|fl]|]; intros [= <- <- <-];
      unfold EACCES, ENOTDIR, ENOENT; eauto.
Qed.

(** Where the old output file could be removed, a new one can be created. *)
Lemma open_after_unlink out s :
  can_unlink (fs s) out = true ->
  exists sB, open_w out (after_removal out s) = (Ok tt, sB, [EvOpen out]).
Proof.
  intros Hcan. unfold after_removal. rewrite Hcan. unfold can_unlink in Hcan.
  destruct (FS.lookup (fs s) out) as [[w|fl]|] eqn:Hout; try done.
  destruct (FS.lookup (fs s) (Path.parent out)) as [[[|]|fl']|] eqn:Hpar; try done.
  assert (Hne : out <> Path.parent out).
  { intros Heq. rewrite <- Heq, Hout in Hpar. done. }
  unfold open_w. cbn [fs]. rewrite lookup_remove_eq, (lookup_remove_ne _ _ _ Hne), Hpar.
  eauto.
Qed.

(** Every outcome of a run whose command line is accepted. *)
Lemma main_outcome flushed script_dir argv a s :
  parse_args argv = Ok a ->
  let out := out_path_of script_dir a in
  (exists root evr, resolve_root script_dir a s = (Raise (not_found root), s, evr)
     /\ all a = false
     /\ FS.is_dir (fs s) root = false
     /\ main flushed script_dir argv s = (Raise (not_found root), s, evr))
  \/ (exists root evr e,
        resolve_root script_dir a s = (Ok root, s, evr)
        /\ open_w out s = (Raise e, s, [EvOpen out])
        /\ after_removal out s = s
        /\ main flushed script_dir argv s
           = (Raise e, s,
              (evr ++ removal_events out s
                   ++ [EvScan root (iter_source_files (fs s) root); EvOpen out])%list))
  \/ (exists root evr sB texts,
        let sA := after_removal out s in
        let files := iter_source_files (fs sA) root in
        resolve_root script_dir a s = (Ok root, s, evr)
        /\ open_w out sA = (Ok tt, sB, [EvOpen out])
        /\ Forall2 (fun f t => f <> out -> t = entry_text (fs sA) f) files texts
        /\ main flushed script_dir argv s
           = (Ok tt, mk_state (FS.set_data out (document root files texts) (fs sB)) None,
              (evr ++ removal_events out s ++ EvScan root files
                   :: (EvOpen out :: map EvRead files)
                   ++ [EvPrint (summary (length files) out)])%list)).
Proof.
  intros Ha out.
  destruct (resolve_root_spec script_dir a s) as ([root|e] & evr & Hr & Hstat & Hspec).
  2:{ left. destruct Hspec as [Hall Hspec].
      destruct (dir_name a) as [d|] eqn:Hd.
      - destruct Hspec as [-> Hno]. eexists _, evr. repeat split; try done.
        by apply (main_root_raise _ _ _ a).
      - exfalso. pose proof (parse_args_spec argv) as Hp. rewrite Ha in Hp.
        destruct Hp as (Hx & Hall' & Hdir'). rewrite Hall in Hall'. rewrite Hd in Hdir'.
        rewrite <- Hall' in Hx. destruct (has_dir argv) eqn:Hhd; [|done].
        clear -Hdir' Hhd. induction argv as [|[|d|o] argv IH]; simpl in *; try done; auto.
        by destruct (last_dir argv). }
  right. rewrite (main_root_ok _ _ _ _ _ _ _ Ha Hr). cbv zeta. fold out.
  destruct (open_w out (after_removal out s)) as [[[[]|e] sB] evo] eqn:Hopen.
  - right. destruct (open_w_ok _ _ _ _ Hopen) as (_ & -> & _).
    destruct (write_merged_ok flushed root
                (iter_source_files (fs (after_removal out s)) root) out _ _ _
                (iter_source_files_all_below _ _) Hopen) as (texts & Hw & Htexts).
    exists root, evr, sB, texts. cbv zeta. rewrite Hw. by repeat split.
  - left. destruct (open_w_raise _ _ _ _ _ Hopen) as (-> & -> & _).
    assert (Hkeep : after_removal out s = s).
    { unfold after_removal. destruct (can_unlink (fs s) out) eqn:Hcan; [|done].
      destruct (open_after_unlink _ _ Hcan) as [sB' Hok]. by rewrite Hok in Hopen. }
    rewrite (write_merged_raise _ _ _ _ _ _ _ _ Hopen). rewrite Hkeep in *.
    exists root, evr, e. by repeat split.
Qed.

Lemma not_scan_stat ev root files :
  Forall (fun e => exists p, e = EvExists p \/ e = EvIsDir p) ev -> EvScan root files ∉ ev.
Proof.
  intros Hstat Hin. rewrite Forall_forall in Hstat.
  destruct (Hstat _ Hin) as (p & [?|?]); discriminate.
Qed.

Lemma not_scan_removal out s root files : EvScan root files ∉ removal_events out s.
Proof.
  unfold removal_events. destruct (FS.exists_ (fs s) out);
    rewrite ?elem_of_cons, elem_of_nil; intros H; decompose [or] H;
    done || discriminate.
Qed.

Lemma not_scan_reads root files l : EvScan root files ∉ map EvRead l.
Proof.
  induction l as [|f l IH]; simpl; [apply not_elem_of_nil|].
  rewrite elem_of_cons. intros [?|?]; [discriminate | done].
Qed.

(** The one scan of a successful run. *)
Lemma main_ok_scan flushed script_dir argv s s' ev a root files :
  main flushed script_dir argv s = (Ok tt, s', ev) ->
  parse_args argv = Ok a ->
  EvScan root files ∈ ev ->
  let out := out_path_of script_dir a in
  let sA := after_removal out s in
  exists sB texts,
    files = iter_source_files (fs sA) root
    /\ open_w out sA = (Ok tt, sB, [EvOpen out])
    /\ Forall2 (fun f t => f <> out -> t = entry_text (fs sA) f) files texts
    /\ s' = mk_state (FS.set_data out (document root files texts) (fs sB)) None.
Proof.
  intros Hmain Ha Hscan out sA.
  destruct (main_ok_inv _ _ _ _ _ _ Hmain)
    as (a' & root' & evr & sB & texts & Ha' & Hr & Hstat & Hopen & Htexts & Hs' & Hev).
  rewrite Ha in Ha'. injection Ha' as <-. fold out sA in Hopen, Htexts, Hs', Hev.
  rewrite Hev in Hscan.
  rewrite !elem_of_app, !elem_of_cons, elem_of_app, list_elem_of_singleton in Hscan.
  destruct Hscan as [Hs|[Hs|[Hs|[Hs|Hs]]]]; try discriminate.
  - by apply not_scan_stat in Hs.
  - by apply not_scan_removal in Hs.
  - injection Hs as -> ->. by exists sB, texts.
  - apply elem_of_cons in Hs as [Hs|Hs]; [discriminate|]. by apply not_scan_reads in Hs.
Qed.

(** X7. A run changes nothing but the entry at its output path: every
    other path holds after the run what it held before, whatever the
    outcome. *)
Theorem main_touches_only_output flushed script_dir argv s a p :
  parse_args argv = Ok a ->
  p <> out_path_of script_dir a ->
  FS.lookup (fs (main flushed script_dir argv s).1.2) p = FS.lookup (fs s) p.
Proof.
  intros Ha Hp.
  destruct (main_outcome flushed script_dir argv a s Ha)
    as [(root & evr & _ & _ & _ & ->)
       |[(root & evr & e & _ & _ & _ & ->)
        |(root & evr & sB & texts & _ & Hopen & _ & ->)]]; [done..|].
  cbn [fst snd fs].
  destruct (open_w_ok _ _ _ _ Hopen) as (_ & _ & _ & Hother).
  rewrite lookup_set_data_ne by done. rewrite Hother by done.
  by apply lookup_after_removal.
Qed.

Lemma main_touches_only_output_witness :
  FS.lookup (fs (main (fun _ => "") ["r"] [OptAll] (mk_state fs_two_files None)).1.2)
    ["r"; "a.py"]
  = FS.lookup fs_two_files ["r"; "a.py"].
Proof.
  apply (main_touches_only_output (fun _ => "") ["r"] [OptAll]
           (mk_state fs_two_files None) (mk_args true None OUTPUT_FILENAME)).
  - reflexivity.
  - discriminate.
Defined.




(** X10. In a successful run that found no file at the output path, or
    could remove it, the output file is not among the files scanned. *)
Theorem output_not_merged_when_removed flushed script_dir argv s s' ev a root files :
  main flushed script_dir argv s = (Ok tt, s', ev) ->
  parse_args argv = Ok a ->
  FS.exists_ (fs s) (out_path_of script_dir a) = false
  \/ can_unlink (fs s) (out_path_of script_dir a) = true ->
  EvScan root files ∈ ev ->
  out_path_of script_dir a ∉ files.
Proof.
  intros Hmain Ha Hcase Hscan.
  destruct (main_ok_scan _ _ _ _ _ _ _ _ _ Hmain Ha Hscan) as (sB & texts & -> & _).
  by apply output_not_scanned.
Qed.

Lemma output_not_merged_when_removed_witness :
  ["r"; "document.txt"] ∉ [ ["r"; "a.py"]; ["r"; "sub"; "b.txt"] ].
Proof.
  apply (output_not_merged_when_removed (fun _ => "") ["r"] [OptAll]
           (mk_state fs_two_files None)
           (main (fun _ => "") ["r"] [OptAll] (mk_state fs_two_files None)).1.2
           (main (fun _ => "") ["r"] [OptAll] (mk_state fs_two_files None)).2
           (mk_args true None OUTPUT_FILENAME) ["r"]).
  - by vm_compute.
  - reflexivity.
  - left. reflexivity.
  - assert (Hev : (main (fun _ => "") ["r"] [OptAll] (mk_state fs_two_files None)).2
                  = [EvExists ["r"; "document.txt"];
                     EvScan ["r"] [ ["r"; "a.py"]; ["r"; "sub"; "b.txt"] ];
                     EvOpen ["r"; "document.txt"]; EvRead ["r"; "a.py"];
                     EvRead ["r"; "sub"; "b.txt"];
                     EvPrint "[완료] 2개 파일을 병합했습니다 -> /r/document.txt"])
      by (by vm_compute).
    rewrite Hev. apply elem_of_cons. right. apply list_elem_of_here.
Defined.

Lemma texts_exact out fs0 files texts :
  out ∉ files ->
  Forall2 (fun f t => f <> out -> t = entry_text fs0 f) files texts ->
  texts = map (entry_text fs0) files.
Proof.
  intros Hout Htexts. induction Htexts as [|f t files texts Hft _ IH]; [done|].
  apply not_elem_of_cons in Hout as [Hne Hout]. simpl. by rewrite <- Hft, <- IH.
Qed.

Lemma entry_text_after_removal out s f :
  f <> out -> entry_text (fs (after_removal out s)) f = entry_text (fs s) f.
Proof. intros Hne. by apply entry_text_lookup, lookup_after_removal. Qed.

(** X11. In a successful run that found no file at the output path, or
    could remove it, the output file holds exactly the entries of the
    scanned files with the texts these files had before the run. *)
Theorem main_document flushed script_dir argv s s' ev a root files :
  main flushed script_dir argv s = (Ok tt, s', ev) ->
  parse_args argv = Ok a ->
  FS.exists_ (fs s) (out_path_of script_dir a) = false
  \/ can_unlink (fs s) (out_path_of script_dir a) = true ->
  EvScan root files ∈ ev ->
  content (fs s') (out_path_of script_dir a)
  = Some (document root files (map (entry_text (fs s)) files)).
Proof.
  intros Hmain Ha Hcase Hscan.
  destruct (main_ok_scan _ _ _ _ _ _ _ _ _ Hmain Ha Hscan)
    as (sB & texts & Hfiles & Hopen & Htexts & ->).
  assert (Hout : out_path_of script_dir a ∉ files).
  { rewrite Hfiles. by apply output_not_scanned. }
  rewrite (texts_exact _ _ _ _ Hout Htexts). cbn [fs].
  rewrite content_set_data.
  - do 2 f_equal. apply map_ext_in. intros f Hf. apply entry_text_after_removal.
    intros ->. by apply Hout, list_elem_of_In.
  - destruct (open_w_ok _ _ _ _ Hopen) as (_ & _ & Hc & _). by rewrite Hc.
Qed.

Lemma main_document_witness :
  content (fs (main (fun _ => "") ["r"] [OptAll] (mk_state fs_two_files None)).1.2)
    (out_path_of ["r"] (mk_args true None OUTPUT_FILENAME))
  = Some (document ["r"] [ ["r"; "a.py"]; ["r"; "sub"; "b.txt"] ]
            (map (entry_text fs_two_files) [ ["r"; "a.py"]; ["r"; "sub"; "b.txt"] ])).
Proof.
  apply (main_document (fun _ => "") ["r"] [OptAll] (mk_state fs_two_files None)
           (main (fun _ => "") ["r"] [OptAll] (mk_state fs_two_files None)).1.2
           (main (fun _ => "") ["r"] [OptAll] (mk_state fs_two_files None)).2
           (mk_args true None OUTPUT_FILENAME) ["r"]).
  - by vm_compute.
  - reflexivity.
  - left. reflexivity.
  - assert (Hev : (main (fun _ => "") ["r"] [OptAll] (mk_state fs_two_files None)).2
                  = [EvExists ["r"; "document.txt"];
                     EvScan ["r"] [ ["r"; "a.py"]; ["r"; "sub"; "b.txt"] ];
                     EvOpen ["r"; "document.txt"]; EvRead ["r"; "a.py"];
                     EvRead ["r"; "sub"; "b.txt"];
                     EvPrint "[완료] 2개 파일을 병합했습니다 -> /r/document.txt"])
      by (by vm_compute).
    rewrite Hev. apply elem_of_cons. right. apply list_elem_of_here.
Defined.

(** X12. The order of a successful run: the root and the output path are
    looked at and the old output removed, then comes the one scan, then the
    output is opened, then every scanned file is read once, in the order of
    the list, and the summary is printed last. *)
Theorem run_order flushed script_dir argv s s' ev :
  main flushed script_dir argv s = (Ok tt, s', ev) ->
  exists a root files before,
    parse_args argv = Ok a
    /\ ev = (before ++ EvScan root files :: EvOpen (out_path_of script_dir a)
                    :: map EvRead files
                    ++ [EvPrint (summary (length files) (out_path_of script_dir a))])%list
    /\ Forall (fun e => exists p, e = EvExists p \/ e = EvIsDir p \/ e = EvUnlink p) before.
Proof.
  intros Hmain.
  destruct (main_ok_inv _ _ _ _ _ _ Hmain)
    as (a & root & evr & sB & texts & Ha & Hr & Hstat & Hopen & Htexts & Hs' & Hev).
  eexists a, root, _, (evr ++ removal_events (out_path_of script_dir a) s)%list.
  split; [done|]. split.
  - rewrite Hev. by rewrite <- app_assoc.
  - apply Forall_app. split.
    + eapply Forall_impl; [exact Hstat|]. intros e (p & [->| ->]); eauto.
    + unfold removal_events. destruct (FS.exists_ _ _); repeat constructor; eauto.
Qed.

Lemma run_order_witness :
  exists a root files before,
    parse_args [OptAll] = Ok a
    /\ (main (fun _ => "") ["r"] [OptAll] (mk_state fs_two_files None)).2
       = (before ++ EvScan root files :: EvOpen (out_path_of ["r"] a)
                 :: map EvRead files
                 ++ [EvPrint (summary (length files) (out_path_of ["r"] a))])%list
    /\ Forall (fun e => exists p, e = EvExists p \/ e = EvIsDir p \/ e = EvUnlink p) before.
Proof.
  apply (run_order (fun _ => "") ["r"] [OptAll] (mk_state fs_two_files None)
           (main (fun _ => "") ["r"] [OptAll] (mk_state fs_two_files None)).1.2).
  by vm_compute.
Defined.

Section OutsideRoot.

Variable flushed : string -> string.
Variables root out : path.


End OutsideRoot.



(** ** Names and extensions *)

Lemma rfind_from_dotless s : forall i, dotless s = true -> PyStr.rfind_from i "." s = (-1)%Z.
Proof.
  induction s as [|c s IH]; intros i Hs; [done|]. simpl in *.
  apply andb_true_iff in Hs as [Hc Hs]. rewrite (IH _ Hs). simpl.
  by destruct (Ascii.eqb c ".").
Qed.

(** The last dot of [stem.ext] is the one before [ext]. *)
Lemma rfind_from_stem_ext stem e : forall i,
  (0 <= i)%Z -> dotless e = true ->
  PyStr.rfind_from i "." (stem +:+ String "." e) = (i + PyStr.len stem)%Z.
Proof.
  induction stem as [|c stem IH]; intros i Hi He.
  - change ("" +:+ String "." e) with (String "." e). cbn [PyStr.rfind_from].
    rewrite (rfind_from_dotless _ _ He). simpl. unfold PyStr.len. simpl. lia.
  - change (String c stem +:+ String "." e) with (String c (stem +:+ String "." e)).
    cbn [PyStr.rfind_from]. rewrite IH by (lia || done).
    destruct (Z.leb_spec 0 (i + 1 + PyStr.len stem)).
    + unfold PyStr.len. cbn [String.length]. lia.
    + unfold PyStr.len in *. lia.
Qed.

Lemma drop_append stem s : PyStr.drop (String.length stem) (stem +:+ s) = s.
Proof. induction stem as [|c stem IH]; [done | exact IH]. Qed.

Lemma length_append a b : String.length (a +:+ b) = String.length a + String.length b.
Proof.
  induction a as [|c a IH]; [done|].
  change (String c a +:+ b) with (String c (a +:+ b)). simpl. by rewrite IH.
Qed.

Lemma suffix_stem_ext dir stem e :
  stem <> "" -> e <> "" -> dotless e = true ->
  Path.suffix (dir ++ [stem +:+ String "." e])%list = String "." e.
Proof.
  intros Hstem He Hdot. unfold Path.suffix, Path.name. rewrite last_last.
  unfold PyStr.rfind. rewrite rfind_from_stem_ext by (lia || done).
  unfold PyStr.len. rewrite length_append. cbn [String.length].
  destruct stem as [|c stem]; [done|]. destruct e as [|d e]; [done|].
  cbn [String.length].
  destruct (Z.ltb_spec 0 (0 + Z.of_nat (S (String.length stem)))); [|lia].
  destruct (Z.ltb_spec (0 + Z.of_nat (S (String.length stem)))
              (Z.of_nat (S (String.length stem) + S (S (String.length e))) - 1)); [|lia].
  cbn [andb]. rewrite Z.add_0_l, Nat2Z.id.
  apply (drop_append (String c stem)).
Qed.

Lemma suffix_dotless dir c s :
  dotless s = true -> Path.suffix (dir ++ [String c s])%list = "".
Proof.
  intros Hs. unfold Path.suffix, Path.name. rewrite last_last.
  unfold PyStr.rfind. cbn [PyStr.rfind_from]. rewrite (rfind_from_dotless _ _ Hs).
  simpl. by destruct (Ascii.eqb c ".").
Qed.

(** X14. A name [stem.ext], with a stem that is not empty, is accepted as
    soon as [.ext] in lower case is one of the extensions, whatever the
    directory and whatever dots the stem holds. *)
Theorem is_allowed_file_by_extension dir stem e :
  stem <> "" -> e <> "" -> dotless e = true ->
  PyStr.lower (String "." e) ∈ WHITELIST_EXTS ->
  is_allowed_file (dir ++ [stem +:+ String "." e])%list = true.
Proof.
  intros Hstem He Hdot Hext. unfold is_allowed_file.
  rewrite (suffix_stem_ext dir stem e Hstem He Hdot).
  rewrite (bool_decide_eq_true_2 _ Hext). by destruct (bool_decide _).
Qed.

Lemma is_allowed_file_by_extension_witness :
  is_allowed_file (["r"; "src"] ++ ["a.tar" +:+ String "." "JSON"])%list = true.
Proof.
  apply (is_allowed_file_by_extension ["r"; "src"] "a.tar" "JSON").
  - discriminate.
  - discriminate.
  - reflexivity.
  - by vm_compute.
Defined.

(** X15. A name with no dot after its first character has no extension: it
    is accepted only as one of the bare names, so that a file named [.py] or
    [.gitignore] is left out. *)
Theorem is_allowed_file_without_extension dir c s :
  dotless s = true ->
  is_allowed_file (dir ++ [String c s])%list
  = bool_decide (String c s ∈ WHITELIST_BARE_NAMES).
Proof.
  intros Hs. unfold is_allowed_file. rewrite (suffix_dotless dir c s Hs).
  unfold Path.name. rewrite last_last.
  destruct (bool_decide (String c s ∈ WHITELIST_BARE_NAMES)); [done|].
  by vm_compute.
Qed.

Lemma is_allowed_file_without_extension_witness :
  is_allowed_file (["r"] ++ [String "." "py"])%list = false
  /\ is_allowed_file (["r"] ++ [String "M" "akefile"])%list = true.
Proof.
  split.
  - rewrite (is_allowed_file_without_extension ["r"] "." "py"); [by vm_compute | reflexivity].
  - rewrite (is_allowed_file_without_extension ["r"] "M" "akefile");
      [by vm_compute | reflexivity].
Defined.

(** ** The output path *)






(** ** Newlines and trailing white space *)

Lemma universal_newlines_no_cr_bounded : forall n s,
  String.length s <= n -> has_cr (PyStr.universal_newlines s) = false.
Proof.
  induction n as [|n IH]; intros s Hlen.
  { destruct s; [done | simpl in Hlen; lia]. }
  destruct s as [|c s]; [done|]. cbn [PyStr.universal_newlines]. simpl in Hlen.
  destruct (PyStr.code c =? 13)%N eqn:Hc.
  - destruct s as [|d s]; [done|]. simpl in Hlen.
    destruct (PyStr.code d =? 10)%N eqn:Hd.
    + cbn [has_cr]. apply N.eqb_eq in Hd. rewrite Hd. simpl. apply IH. lia.
    + cbn [has_cr]. rewrite IH by (simpl; lia). done.
  - cbn [has_cr]. rewrite Hc. simpl. apply IH. lia.
Qed.

Lemma list_ascii_of_string_app a b :
  list_ascii_of_string (a +:+ b) = (list_ascii_of_string a ++ list_ascii_of_string b)%list.
Proof.
  induction a as [|c a IH]; [done|].
  change (String c a +:+ b) with (String c (a +:+ b)). simpl. by rewrite IH.
Qed.

Lemma string_of_list_ascii_app a b :
  string_of_list_ascii (a ++ b)%list = string_of_list_ascii a +:+ string_of_list_ascii b.
Proof.
  induction a as [|c a IH]; [done|]. simpl. rewrite IH. done.
Qed.

Lemma rstrip_rev_blank l r :
  forallb (fun c => PyStr.space1 (PyStr.code c)) l = true ->
  PyStr.rstrip_rev (l ++ r)%list = PyStr.rstrip_rev r.
Proof.
  induction l as [|c l IH]; [done|]. simpl. intros [Hc Hl]%andb_true_iff.
  rewrite Hc. by apply IH.
Qed.

(** Trimming only takes from the end: what is left is the beginning. *)
Lemma rstrip_rev_suffix : forall n r,
  length r <= n -> exists pre, r = (pre ++ PyStr.rstrip_rev r)%list.
Proof.
  induction n as [|n IH]; intros r Hlen.
  { destruct r; [by exists [] | simpl in Hlen; lia]. }
  destruct r as [|c1 r1]; [by exists []|]. simpl in Hlen. cbn [PyStr.rstrip_rev].
  destruct (PyStr.space1 (PyStr.code c1)).
  { destruct (IH r1 ltac:(lia)) as [pre Hpre]. exists (c1 :: pre). simpl. by rewrite <- Hpre. }
  destruct r1 as [|c2 r2]; [by exists []|]. simpl in Hlen.
  destruct (PyStr.space2 (PyStr.code c2) (PyStr.code c1)).
  { destruct (IH r2 ltac:(lia)) as [pre Hpre]. exists (c1 :: c2 :: pre).
    simpl. by rewrite <- Hpre. }
  destruct r2 as [|c3 r3]; [by exists []|]. simpl in Hlen.
  destruct (PyStr.space3 (PyStr.code c3) (PyStr.code c2) (PyStr.code c1)); [|by exists []].
  destruct (IH r3 ltac:(lia)) as [pre Hpre]. exists (c1 :: c2 :: c3 :: pre).
  simpl. by rewrite <- Hpre.
Qed.

(** X17. The text read from a file holds no carriage return: the line ends
    CR LF and CR of a file reach the document as LF. *)
Theorem entry_text_no_cr fs0 f fl :
  FS.lookup fs0 f = Some (File fl) -> read_error fl = None ->
  entry_text fs0 f = PyStr.universal_newlines (PyStr.decode_replace (data fl))
  /\ has_cr (entry_text fs0 f) = false.
Proof.
  intros Hf Hread. unfold entry_text, read_text. cbn [fs]. rewrite Hf, Hread.
  split; [done|]. by apply (universal_newlines_no_cr_bounded _ _ (le_n _)).
Qed.

Lemma entry_text_no_cr_witness :
  entry_text fs_crlf ["r"; "w.txt"]
  = PyStr.universal_newlines (PyStr.decode_replace (data crlf_file))
  /\ has_cr (entry_text fs_crlf ["r"; "w.txt"]) = false.
Proof.
  apply (entry_text_no_cr fs_crlf ["r"; "w.txt"] crlf_file); reflexivity.
Defined.

(** X18. Trimming removes an end of the text and nothing else, and ASCII
    white space added at the end of a text does not change what is left:
    files that differ in trailing blanks and newlines give the same entry. *)
Theorem rstrip_trailing s w :
  ascii_blank w = true ->
  PyStr.rstrip (s +:+ w) = PyStr.rstrip s
  /\ exists tail, s = PyStr.rstrip s +:+ tail.
Proof.
  intros Hw. split.
  - unfold PyStr.rstrip. rewrite list_ascii_of_string_app, rev_app_distr.
    rewrite rstrip_rev_blank; [done|]. unfold ascii_blank in Hw.
    rewrite forallb_forall in *. intros c Hc. apply Hw. by apply in_rev.
  - unfold PyStr.rstrip.
    destruct (rstrip_rev_suffix _ (rev (list_ascii_of_string s)) (le_n _)) as [pre Hpre].
    exists (string_of_list_ascii (rev pre)).
    rewrite <- string_of_list_ascii_app, <- rev_app_distr, <- Hpre, rev_involutive.
    by rewrite string_of_list_ascii_of_string.
Qed.

Lemma rstrip_trailing_witness :
  PyStr.rstrip ("bee" +:+ (" " +:+ nl +:+ nl)) = PyStr.rstrip "bee"
  /\ exists tail, "bee" = PyStr.rstrip "bee" +:+ tail.
Proof.
  apply (rstrip_trailing "bee" (" " +:+ nl +:+ nl)). reflexivity.
Defined.
